(** * resume_bot: a shallow embedding of [app.py]

    The Flask application has three kinds of code of its own: the helper
    functions [allowed_file] and [extract_text_from_file], the two prompt
    templates rendered with [str.format], and the request handlers
    [builder] and [analyzer].  Everything else (pdfplumber, python-docx,
    the Gemini client, the Markdown renderer) is a library, and enters
    the model as a record of services.

    Strings are byte strings ([string] of the Standard Library).  The
    code only ever compares against ASCII text (the dot, [pdf], [docx],
    [Error]), and no non-ASCII code point lowercases to one of the
    letters of [pdf] or [docx], so the byte model agrees with Python's
    [str] on every comparison made here.

    An exception is modelled by its message, i.e. by what [str(e)] yields
    in the handlers' f-strings. *)

From Stdlib Require Import String Ascii List Bool Arith Lia.
From stdpp Require Import gmap strings.

(** ** Outcomes of Python calls *)

Inductive outcome (A : Type) : Type :=
| Returned (a : A)
| Raised (e : string).
Arguments Returned {A} a.
Arguments Raised {A} e.

Definition omap {A B : Type} (f : A -> B) (o : outcome A) : outcome B :=
  match o with
  | Returned a => Returned (f a)
  | Raised e => Raised e
  end.

(** ** Python string operations *)

Module PyStr.

(** [sub in s] *)
Fixpoint contains (sub s : string) : bool :=
  String.prefix sub s ||
  match s with
  | EmptyString => false
  | String _ rest => contains sub rest
  end.

(** [s.endswith(suf)] *)
Fixpoint endswith (s suf : string) : bool :=
  String.eqb s suf ||
  match s with
  | EmptyString => false
  | String _ rest => endswith rest suf
  end.

Definition is_upper (c : ascii) : bool :=
  (65 <=? nat_of_ascii c) && (nat_of_ascii c <=? 90).

Definition lower_char (c : ascii) : ascii :=
  if is_upper c then ascii_of_nat (nat_of_ascii c + 32) else c.

(** [s.lower()] *)
Fixpoint lower (s : string) : string :=
  match s with
  | EmptyString => EmptyString
  | String c rest => String (lower_char c) (lower rest)
  end.

(** The cut made by [s.rsplit(sep, 1)]: the text before and after the
    last occurrence of [sep], when there is one. *)
Fixpoint rcut (sep : ascii) (s : string) : option (string * string) :=
  match s with
  | EmptyString => None
  | String c rest =>
      match rcut sep rest with
      | Some (before, after) => Some (String c before, after)
      | None => if Ascii.eqb c sep then Some (EmptyString, rest) else None
      end
  end.

(** [s.rsplit(sep, 1)] for a one-character separator. *)
Definition rsplit1 (sep : ascii) (s : string) : list string :=
  match rcut sep s with
  | Some (before, after) => [before; after]
  | None => [s]
  end.

(** [l[i]], raising [IndexError] out of range. *)
Definition index {A : Type} (l : list A) (i : nat) : outcome A :=
  match nth_error l i with
  | Some x => Returned x
  | None => Raised "list index out of range"
  end.

(** [x in {..}] for a set of strings. *)
Definition in_set (x : string) (s : list string) : bool :=
  existsb (String.eqb x) s.

(** The number of positions of [s] at which [sub] starts. *)
Fixpoint occurrences (sub s : string) : nat :=
  (if String.prefix sub s then 1 else 0) +
  match s with
  | EmptyString => 0
  | String _ rest => occurrences sub rest
  end.

(** [s.split(sep)] for a one-character separator. *)
Fixpoint split (sep : ascii) (s : string) : list string :=
  match s with
  | EmptyString => [EmptyString]
  | String c rest =>
      if Ascii.eqb c sep then EmptyString :: split sep rest
      else match split sep rest with
           | [] => [String c EmptyString]
           | w :: ws => String c w :: ws
           end
  end.

End PyStr.

(** ** Helper functions of [app.py] *)

Definition ALLOWED_EXTENSIONS : list string := ["pdf"; "docx"].

(** [allowed_file]: Python's [and] evaluates its right operand only when
    the left one is true. *)
Definition allowed_file (filename : string) : outcome bool :=
  if PyStr.contains "." filename then
    omap (fun ext => PyStr.in_set (PyStr.lower ext) ALLOWED_EXTENSIONS)
         (PyStr.index (PyStr.rsplit1 "." filename) 1)
  else Returned false.

(** [os.path.join(a, b)] on a POSIX system: an absolute second component
    replaces the first. *)
Definition os_path_join (a b : string) : string :=
  if String.prefix "/" b then b
  else if String.eqb a "" || PyStr.endswith a "/" then a +:+ b
  else a +:+ "/" +:+ b.

(** ** Values passed to [str.format] *)

Inductive pyval : Type :=
| PyNone
| PyStr (s : string).

(** [str(v)], which is also what a bare replacement field renders. *)
Definition py_str (v : pyval) : string :=
  match v with
  | PyNone => "None"
  | PyStr s => s
  end.

Definition of_option (o : option string) : pyval :=
  match o with
  | Some s => PyStr s
  | None => PyNone
  end.

Definition kwargs : Type := list (string * pyval).

Fixpoint kw_lookup (name : string) (kw : kwargs) : option pyval :=
  match kw with
  | [] => None
  | (k, v) :: rest => if String.eqb k name then Some v else kw_lookup name rest
  end.

(** ** [str.format]

    The fragment the templates use: literal text, the escapes [{{] and
    [}}], and replacement fields that are a keyword name with neither
    conversion nor format specification.  The string is read left to
    right; [field] holds the characters of the replacement field being
    read, if any.  A field is looked up when its closing brace is read,
    so the first error met from the left is the one raised. *)

Definition key_error (name : string) : string := "'" +:+ name +:+ "'".

Definition plain_name (name : string) : bool :=
  negb (String.eqb name "") &&
  negb (PyStr.contains "!" name || PyStr.contains ":" name ||
        PyStr.contains "." name || PyStr.contains "[" name ||
        PyStr.contains "{" name).

Fixpoint format_from (kw : kwargs) (s : string) (field : option string)
  : outcome string :=
  match field, s with
  | None, EmptyString => Returned EmptyString
  | None, String c rest =>
      if Ascii.eqb c "{" then
        match rest with
        | EmptyString => Raised "Single '{' encountered in format string"
        | String c' rest' =>
            if Ascii.eqb c' "{"
            then omap (String "{") (format_from kw rest' None)
            else format_from kw rest (Some EmptyString)
        end
      else if Ascii.eqb c "}" then
        match rest with
        | EmptyString => Raised "Single '}' encountered in format string"
        | String c' rest' =>
            if Ascii.eqb c' "}"
            then omap (String "}") (format_from kw rest' None)
            else Raised "Single '}' encountered in format string"
        end
      else omap (String c) (format_from kw rest None)
  | Some name, EmptyString => Raised "expected '}' before end of string"
  | Some name, String c rest =>
      if Ascii.eqb c "}" then
        if plain_name name then
          match kw_lookup name kw with
          | Some v => omap (String.append (py_str v)) (format_from kw rest None)
          | None => Raised (key_error name)
          end
        else Raised "replacement field outside the modelled fragment"
      else format_from kw rest (Some (name +:+ String c EmptyString))
  end.

Definition format (template : string) (kw : kwargs) : outcome string :=
  format_from kw template None.

(** A template read once, independently of the arguments: the pieces of
    literal text and the names of the fields between them. *)
Inductive piece : Type :=
| Lit (text : string)
| Field (name : string).

Definition lit_cons (c : ascii) (ps : list piece) : list piece :=
  match ps with
  | Lit text :: rest => Lit (String c text) :: rest
  | _ => Lit (String c EmptyString) :: ps
  end.

Fixpoint pieces_from (s : string) (field : option string)
  : outcome (list piece) :=
  match field, s with
  | None, EmptyString => Returned []
  | None, String c rest =>
      if Ascii.eqb c "{" then
        match rest with
        | EmptyString => Raised "Single '{' encountered in format string"
        | String c' rest' =>
            if Ascii.eqb c' "{"
            then omap (lit_cons "{") (pieces_from rest' None)
            else pieces_from rest (Some EmptyString)
        end
      else if Ascii.eqb c "}" then
        match rest with
        | EmptyString => Raised "Single '}' encountered in format string"
        | String c' rest' =>
            if Ascii.eqb c' "}"
            then omap (lit_cons "}") (pieces_from rest' None)
            else Raised "Single '}' encountered in format string"
        end
      else omap (lit_cons c) (pieces_from rest None)
  | Some name, EmptyString => Raised "expected '}' before end of string"
  | Some name, String c rest =>
      if Ascii.eqb c "}" then
        if plain_name name then omap (cons (Field name)) (pieces_from rest None)
        else Raised "replacement field outside the modelled fragment"
      else pieces_from rest (Some (name +:+ String c EmptyString))
  end.

Definition pieces (template : string) : outcome (list piece) :=
  pieces_from template None.

Fixpoint fill (ps : list piece) (kw : kwargs) : outcome string :=
  match ps with
  | [] => Returned EmptyString
  | Lit text :: rest => omap (String.append text) (fill rest kw)
  | Field name :: rest =>
      match kw_lookup name kw with
      | Some v => omap (String.append (py_str v)) (fill rest kw)
      | None => Raised (key_error name)
      end
  end.

Definition field_names (ps : list piece) : list string :=
  flat_map (fun p => match p with Field n => [n] | Lit _ => [] end) ps.

(** ** Prompt templates

    The two templates are the triple-quoted literals of [app.py], character
    for character: each opens with a newline, and the builder template
    closes with four blanks.  The double quote of the builder template is
    spliced in by its code. *)

Definition dquote : string := String (ascii_of_nat 34) EmptyString.

Definition RESUME_ANALYZER_PROMPT : string :=
"
You are a senior business analyst and career coach. Your task is to analyze the following resume for a business analyst or data analyst role.

Based on the provided resume text below, perform the following three tasks and present the output in a clear, easy-to-read Markdown format. Use bold headings and bullet points.

1.  **Resume Score & Justification**
    - Give a score from 1 to 100 based on the resume's effectiveness.
    - Provide a brief, bulleted justification for this score.

2.  **Tips for Improvement**
    - Provide 3-5 concrete, actionable tips to improve the resume's clarity and impact.
    - Focus on areas like structure, grammar, professional tone, and missing sections.

3.  **Keyword and Quantifiable Impact Suggestions**
    - **Missing Keywords:** Identify 3-5 crucial industry keywords (e.g., SQL, Tableau, Power BI, Python, R, predictive modeling, A/B testing, ETL, dashboarding) that are missing or underutilized.
    - **Quantifiable Impact:** For each project or experience bullet point, suggest how to rephrase it to include quantifiable results or metrics. Provide specific, numbered examples for each section of the resume.

**Resume Text:**
{resume_text}

".

Definition RESUME_BUILDER_PROMPT : string :=
"
You are a professional YAML code agent specializing in generating a single, complete RenderCV configuration file for the 'sb2nov' theme.

Based on the provided user information, you must generate a well-structured YAML code block. The code should start with `cv:` and end correctly, with no extra conversational text or code fences (like ```yaml).

**YAML Code Generation Instructions:**
- **Professional Summary:** Generate a concise, 2-3 sentence professional summary based on the provided user details, focusing on business/data analyst skills. This should be the very first section in `cv.sections`.
- **Order of Sections:** The sections in the generated YAML must be in this exact order: `professional_summary`, `experience`, `education`, `projects`, `skills`, `interests`, `languages`.
- **Formatting:** Use 2-space indentation. Ensure all lists (`-`) and key-value pairs are formatted correctly.
- **Single Page Fit:** Include the provided `design` block with the reduced margins to ensure the CV fits on a single page.

**User Information to convert to YAML:**
Name: {name}
Email: {email}
Phone: {phone}
LinkedIn: {linkedin}
GitHub: {github}
Education: {education}
Experience: {experience}
Projects: {projects}
Skills: {skills}
Interests: {interests}
Languages: {languages}

**Output the complete YAML code block, and nothing else.**

cv:
  name: {name}
  location: Location
  email: {email}
  phone: {phone}
  social_networks:
    - network: LinkedIn
      username: {linkedin}
    - network: GitHub
      username: {github}
  sections:
    professional_summary:
      - '[Generate a 2-3 sentence professional summary based on the user data above. Start with "
+:+ dquote +:+ "I am a..." +:+ dquote +:+
"]'
    experience:
      {experience}
    education:
      {education}
    projects:
      {projects}
    skills:
      {skills}
    interests:
      - bullet: {interests}
    languages:
      - bullet: {languages}
design:
  theme: sb2nov
  page:
    size: us-letter
    top_margin: 1cm
    bottom_margin: 1cm
    left_margin: 1cm
    right_margin: 1cm
    show_page_numbering: false
    show_last_updated_date: false
  header:
    name_font_size: 20pt
    vertical_space_between_name_and_connections: 0.4cm
    vertical_space_between_connections_and_first_section: 0.4cm
    alignment: center
  section_titles:
    font_size: 1.2em
    line_thickness: 0.5pt
    vertical_space_above: 0.3cm
    vertical_space_below: 0.2cm
  entries:
    vertical_space_between_entries: 0.6em
    short_second_row: true
  highlights:
    top_margin: 0.15cm
    left_margin: 0.4cm
    vertical_space_between_highlights: 0.2cm
    horizontal_space_between_bullet_and_highlight: 0.5em
  text:
    font_size: 9pt
    leading: 0.5em
    ".

Definition analyzer_pieces : list piece :=
  Eval vm_compute in
    match pieces RESUME_ANALYZER_PROMPT with
    | Returned ps => ps
    | Raised _ => []
    end.

Definition builder_pieces : list piece :=
  Eval vm_compute in
    match pieces RESUME_BUILDER_PROMPT with
    | Returned ps => ps
    | Raised _ => []
    end.

(** The eleven form fields of the builder, in the order the handler reads
    them. *)
Definition builder_fields : list string :=
  ["name"; "email"; "phone"; "linkedin"; "github"; "education";
   "experience"; "projects"; "skills"; "interests"; "languages"].

(** ** The world a request runs in *)

(** An upload as Werkzeug hands it over: the client's file name and the
    bytes sent. *)
Record FileStorage : Type := {
  filename : string;
  stream : string
}.

Inductive http_method : Type := GET | POST.

(** [request.form] and [request.files] are multi-dicts: a key may occur
    several times and a lookup takes the first occurrence. *)
Record request : Type := {
  method : http_method;
  url : string;
  form : list (string * string);
  files : list (string * FileStorage)
}.

Fixpoint multidict_get {V : Type} (key : string) (d : list (string * V))
  : option V :=
  match d with
  | [] => None
  | (k, v) :: rest => if String.eqb k key then Some v else multidict_get key rest
  end.

Inductive model : Type := model_flash | model_pro.

Inductive response : Type :=
| Redirect (location : string)
| RenderTemplate (template : string) (context : list (string * pyval)).

Inductive event : Type :=
| Saved (path : string)
| OpenedPdf (path : string)
| OpenedDocx (path : string)
| Removed (path : string)
| Generated (m : model) (prompt : string).

(** The files are kept by path, the path being the string the code
    passes to the operating system: two spellings of one file are two
    keys here. *)
Record world : Type := {
  fs : gmap string string;
  flashes : list (string * string);
  trace : list event
}.

(** The libraries the application calls.  Each may raise.
    [pdfplumber_pages] stands for opening the document and calling
    [extract_text] on each page in turn, [docx_paragraphs] for opening
    the document and reading the text of each paragraph,
    [generate_content] for the call to the model followed by the read of
    [response.text]. *)
Record services : Type := {
  pdfplumber_pages : gmap string string -> string -> outcome (list (option string));
  docx_paragraphs : gmap string string -> string -> outcome (list string);
  generate_content : model -> string -> outcome string;
  markdown : string -> outcome string
}.

(** ** A state and exception monad for the handlers

    A raised exception keeps the changes made to the world before it. *)

Definition Flask (A : Type) : Type := world -> outcome A * world.

Definition ret {A : Type} (a : A) : Flask A := fun w => (Returned a, w).

Definition raise {A : Type} (e : string) : Flask A := fun w => (Raised e, w).

Definition bind {A B : Type} (m : Flask A) (k : A -> Flask B) : Flask B :=
  fun w =>
    match m w with
    | (Returned a, w') => k a w'
    | (Raised e, w') => (Raised e, w')
    end.

Definition lift {A : Type} (o : outcome A) : Flask A := fun w => (o, w).

(** [try: body / except Exception as e: handler e] *)
Definition try_except {A : Type} (body : Flask A) (handler : string -> Flask A)
  : Flask A :=
  fun w =>
    match body w with
    | (Returned a, w') => (Returned a, w')
    | (Raised e, w') => handler e w'
    end.

Declare Scope flask_scope.
Delimit Scope flask_scope with flask.
Notation "x <- m ;; k" := (bind m (fun x => k))
  (at level 100, m at next level, right associativity) : flask_scope.
Notation "m ;; k" := (bind m (fun _ => k))
  (at level 100, right associativity) : flask_scope.
Open Scope flask_scope.

Definition log (ev : event) : Flask unit :=
  fun w => (Returned tt,
            {| fs := fs w; flashes := flashes w; trace := trace w ++ [ev] |}).

(** [flash(message, category)] *)
Definition flash (message category : string) : Flask unit :=
  fun w => (Returned tt,
            {| fs := fs w;
               flashes := flashes w ++ [(message, category)];
               trace := trace w |}).

(** [file.save(path)], for a write that goes through.  A write that
    fails (a directory that is missing or closed to the process) raises
    before the handler has done anything else; such runs are outside the
    model, and no property below speaks of them. *)
Definition save (file : FileStorage) (path : string) : Flask unit :=
  (fun w => (Returned tt,
             {| fs := <[path := stream file]> (fs w);
                flashes := flashes w;
                trace := trace w |})) ;;
  log (Saved path).

(** [os.remove(path)] *)
Definition os_remove (path : string) : Flask unit :=
  fun w =>
    match fs w !! path with
    | Some _ =>
        log (Removed path)
            {| fs := delete path (fs w); flashes := flashes w; trace := trace w |}
    | None =>
        (Raised ("[Errno 2] No such file or directory: " +:+ key_error path), w)
    end.

Definition routes : list (string * string) :=
  [("index", "/"); ("builder", "/builder"); ("analyzer", "/analyzer")].

(** [url_for(endpoint)] *)
Definition url_for (endpoint : string) : Flask string :=
  match multidict_get endpoint routes with
  | Some u => ret u
  | None => raise ("Could not build url for endpoint " +:+ key_error endpoint)
  end.

(** [bool(file)] for a [FileStorage] is [bool(file.filename)]. *)
Definition file_truthy (file : FileStorage) : bool :=
  negb (String.eqb (filename file) "").

(** [x or ""] for an optional string. *)
Definition or_empty (x : option string) : string :=
  match x with
  | Some s => if String.eqb s "" then "" else s
  | None => ""
  end.

Definition UPLOAD_FOLDER : string := "uploads".

(** ** The application, over its services *)

Section App.

Context (sv : services).

(** [pdfplumber.open(path)] and the walk over its pages. *)
Definition open_pdf (path : string) : Flask (list (option string)) :=
  log (OpenedPdf path) ;;
  (fun w => (pdfplumber_pages sv (fs w) path, w)).

(** [docx.Document(path)] and the walk over its paragraphs. *)
Definition open_docx (path : string) : Flask (list string) :=
  log (OpenedDocx path) ;;
  (fun w => (docx_paragraphs sv (fs w) path, w)).

(** [model.generate_content(prompt)] and [response.text]. *)
Definition generate (m : model) (prompt : string) : Flask string :=
  log (Generated m prompt) ;;
  lift (generate_content sv m prompt).

(** [extract_text_from_file] *)
Definition extract_text_from_file (file_path : string) : Flask string :=
  let text := EmptyString in
  if PyStr.endswith file_path ".pdf" then
    try_except
      (pages <- open_pdf file_path ;;
       ret (fold_left (fun text page => text +:+ or_empty page) pages text))
      (fun e => ret ("Error extracting text from PDF: " +:+ e))
  else if PyStr.endswith file_path ".docx" then
    try_except
      (paragraphs <- open_docx file_path ;;
       ret (fold_left (fun text paragraph => text +:+ paragraph +:+ String (ascii_of_nat 10) EmptyString)
                      paragraphs text))
      (fun e => ret ("Error extracting text from DOCX: " +:+ e))
  else ret text.

(** The keyword arguments the builder passes to [format]. *)
Definition builder_kwargs (f : list (string * string)) : kwargs :=
  let name := multidict_get "name" f in
  let email := multidict_get "email" f in
  let phone := multidict_get "phone" f in
  let linkedin := multidict_get "linkedin" f in
  let github := multidict_get "github" f in
  let education_text := multidict_get "education" f in
  let experience_text := multidict_get "experience" f in
  let projects_text := multidict_get "projects" f in
  let skills_text := multidict_get "skills" f in
  let interests_text := multidict_get "interests" f in
  let languages_text := multidict_get "languages" f in
  [("name", of_option name); ("email", of_option email);
   ("phone", of_option phone); ("linkedin", of_option linkedin);
   ("github", of_option github); ("education", of_option education_text);
   ("experience", of_option experience_text);
   ("projects", of_option projects_text); ("skills", of_option skills_text);
   ("interests", of_option interests_text);
   ("languages", of_option languages_text)].

Definition builder_prompt (f : list (string * string)) : outcome string :=
  format RESUME_BUILDER_PROMPT (builder_kwargs f).

(** [builder] *)
Definition builder (req : request) : Flask response :=
  match method req with
  | POST =>
      prompt <- lift (builder_prompt (form req)) ;;
      try_except
        (yaml_code <- generate model_flash prompt ;;
         ret (RenderTemplate "builder.html" [("yaml_code", PyStr yaml_code)]))
        (fun e =>
           flash ("Error generating resume: " +:+ e) "danger" ;;
           target <- url_for "builder" ;;
           ret (Redirect target))
  | GET => ret (RenderTemplate "builder.html" [])
  end.

Definition analyzer_prompt (resume_text : string) : outcome string :=
  format RESUME_ANALYZER_PROMPT [("resume_text", PyStr resume_text)].

(** [analyzer].  The [try] block either binds [analysis_results] and
    falls through to the final [render_template], or its handler
    returns a redirect at once. *)
Definition analyzer (req : request) : Flask response :=
  let analysis_results := PyNone in
  match method req with
  | POST =>
      match multidict_get "resume_file" (files req) with
      | None =>
          flash "No file part" "danger" ;;
          ret (Redirect (url req))
      | Some file =>
          if String.eqb (filename file) "" then
            flash "No selected file" "danger" ;;
            ret (Redirect (url req))
          else
            allowed <- (if file_truthy file
                        then lift (allowed_file (filename file))
                        else ret false) ;;
            if (allowed : bool) then
              let filepath := os_path_join UPLOAD_FOLDER (filename file) in
              save file filepath ;;
              resume_text <- extract_text_from_file filepath ;;
              os_remove filepath ;;
              if PyStr.contains "Error" resume_text then
                flash ("Error processing file: " +:+ resume_text) "danger" ;;
                target <- url_for "analyzer" ;;
                ret (Redirect target)
              else
                prompt <- lift (analyzer_prompt resume_text) ;;
                r <- try_except
                       (text <- generate model_pro prompt ;;
                        html <- lift (markdown sv text) ;;
                        ret (inl (PyStr html)))
                       (fun e =>
                          flash ("Error analyzing resume: " +:+ e) "danger" ;;
                          target <- url_for "analyzer" ;;
                          ret (inr (Redirect target))) ;;
                match r with
                | inl analysis_results =>
                    ret (RenderTemplate "analyzer.html"
                                        [("results", analysis_results)])
                | inr early => ret early
                end
            else
              flash "Invalid file type. Please upload a PDF or DOCX." "danger" ;;
              ret (Redirect (url req))
      end
  | GET => ret (RenderTemplate "analyzer.html" [("results", analysis_results)])
  end.

End App.

(** ** Reading a rendered builder prompt *)

Definition newline : ascii := ascii_of_nat 10.

Definition lines (s : string) : list string := PyStr.split newline s.

Fixpoint drop_last (s : string) : string :=
  match s with
  | EmptyString => EmptyString
  | String c EmptyString => EmptyString
  | String c rest => String c (drop_last rest)
  end.

(** The key of a line of the form [    key:], indented by exactly four
    blanks. *)
Definition section_key (line : string) : option string :=
  match line with
  | String " " (String " " (String " " (String " " rest))) =>
      if String.prefix " " rest then None
      else if PyStr.endswith rest ":" then Some (drop_last rest)
      else None
  | _ => None
  end.

Fixpoint after_line (marker : string) (ls : list string) : list string :=
  match ls with
  | [] => []
  | l :: rest => if String.eqb l marker then rest else after_line marker rest
  end.

Fixpoint while_indented (ls : list string) : list string :=
  match ls with
  | [] => []
  | l :: rest => if String.prefix "    " l then l :: while_indented rest else []
  end.

(** The keys under [sections:] in the YAML skeleton, top to bottom. *)
Definition yaml_section_keys (prompt : string) : list string :=
  List.flat_map (fun l => match section_key l with Some k => [k] | None => [] end) (while_indented (after_line "  sections:" (lines prompt))).

(** Where each field is written: the text that precedes it on its line in
    the user-information listing and on its line in the YAML skeleton. *)
Definition slots : list (string * (string * string)) :=
  [("name", ("Name: ", "  name: "));
   ("email", ("Email: ", "  email: "));
   ("phone", ("Phone: ", "  phone: "));
   ("linkedin", ("LinkedIn: ", "      username: "));
   ("github", ("GitHub: ", "      username: "));
   ("education", ("Education: ", "      "));
   ("experience", ("Experience: ", "      "));
   ("projects", ("Projects: ", "      "));
   ("skills", ("Skills: ", "      "));
   ("interests", ("Interests: ", "      - bullet: "));
   ("languages", ("Languages: ", "      - bullet: "))].

(** A filled-in builder form. *)
Definition jane_form : list (string * string) :=
  [("name", "Jane Doe");
   ("email", "jane@x.com");
   ("phone", "+1 555 0100");
   ("linkedin", "jane-doe-li");
   ("github", "jane-doe-gh");
   ("education", "BSc Statistics, 2019");
   ("experience", "Analyst at Acme, 2019-2024");
   ("projects", "Churn dashboard");
   ("skills", "SQL, Tableau");
   ("interests", "Chess");
   ("languages", "English, French")].

(** A value sits in both of its slots and nowhere else. *)
Definition in_both_slots (prompt : string) (entry : string * string) : Prop :=
  let (field, value) := entry in
  match multidict_get field slots with
  | Some (listing, skeleton) =>
      In (listing +:+ value) (lines prompt) /\
      In (skeleton +:+ value) (lines prompt) /\
      PyStr.occurrences value prompt = 2
  | None => False
  end.

(** ** Observing a run *)

Definition add_events (w : world) (evs : list event) : world :=
  {| fs := fs w; flashes := flashes w; trace := trace w ++ evs |}.

Definition add_flash (w : world) (message category : string) : world :=
  {| fs := fs w; flashes := flashes w ++ [(message, category)]; trace := trace w |}.

(** The events a computation appends to the trace of the world it starts
    in. *)
Definition run_events {A : Type} (m : Flask A) (w : world) : list event :=
  drop (List.length (trace w)) (trace (snd (m w))).

(** The text of the pages of a PDF, in page order; a page without text
    adds nothing. *)
Definition page_text (pages : list (option string)) : string :=
  fold_right (fun page rest =>
                match page with Some t => t +:+ rest | None => rest end)
             EmptyString pages.

(** The text of the paragraphs of a DOCX, in order, each followed by a
    newline. *)
Definition paragraph_text (paragraphs : list string) : string :=
  fold_right (fun t rest => t +:+ String newline rest) EmptyString paragraphs.

Section Tail.

Context (sv : services).

(** What [extract_text_from_file] returns, and the events it leaves. *)
Definition extracted_text (files : gmap string string) (path : string) : string :=
  if PyStr.endswith path ".pdf" then
    match pdfplumber_pages sv files path with
    | Returned pages => page_text pages
    | Raised e => "Error extracting text from PDF: " +:+ e
    end
  else if PyStr.endswith path ".docx" then
    match docx_paragraphs sv files path with
    | Returned paragraphs => paragraph_text paragraphs
    | Raised e => "Error extracting text from DOCX: " +:+ e
    end
  else EmptyString.

Definition extract_events (path : string) : list event :=
  if PyStr.endswith path ".pdf" then [OpenedPdf path]
  else if PyStr.endswith path ".docx" then [OpenedDocx path]
  else [].

(** [analyzer] from the test on the extracted text onwards. *)
Definition analyzer_tail (resume_text : string) : Flask response :=
  if PyStr.contains "Error" resume_text then
    flash ("Error processing file: " +:+ resume_text) "danger" ;;
    target <- url_for "analyzer" ;;
    ret (Redirect target)
  else
    prompt <- lift (analyzer_prompt resume_text) ;;
    r <- try_except
           (text <- generate sv model_pro prompt ;;
            html <- lift (markdown sv text) ;;
            ret (inl (PyStr html)))
           (fun e =>
              flash ("Error analyzing resume: " +:+ e) "danger" ;;
              target <- url_for "analyzer" ;;
              ret (inr (Redirect target))) ;;
    match r with
    | inl analysis_results =>
        ret (RenderTemplate "analyzer.html" [("results", analysis_results)])
    | inr early => ret early
    end.

End Tail.

(** The extraction failure path of [analyzer]: a flash of the extracted
    text, a redirect to the analyzer page, and no call to a model. *)
Definition extraction_failure_path
  (w : world) (r : outcome response * world) (resume_text : string) : Prop :=
  fst r = Returned (Redirect "/analyzer") /\
  flashes (snd r) = flashes w ++ [("Error processing file: " +:+ resume_text, "danger"%string)] /\
  forall m prompt,
    ~ In (Generated m prompt) (drop (List.length (trace w)) (trace (snd r))).

(** ** Sample services, requests and worlds *)

Definition constant_services
  (pdf : outcome (list (option string))) (docx : outcome (list string))
  (reply : outcome string) : services :=
  {| pdfplumber_pages := fun _ _ => pdf;
     docx_paragraphs := fun _ _ => docx;
     generate_content := fun _ _ => reply;
     markdown := fun text => Returned ("<p>" +:+ text +:+ "</p>") |}.

Definition healthy_services : services :=
  constant_services (Returned [Some "Jane Doe"%string; None; Some "Analyst"%string])
                    (Returned ["Jane Doe"%string; "Analyst"%string])
                    (Returned "Score: 80"%string).

Definition unreadable_services : services :=
  constant_services (Raised "No /Root object! - Is this really a PDF?")
                    (Raised "File is not a zip file")
                    (Returned "Score: 80"%string).

Definition provider_down_services : services :=
  constant_services (Returned [Some "Jane Doe"%string; None; Some "Analyst"%string])
                    (Returned ["Jane Doe"%string; "Analyst"%string])
                    (Raised "429 Resource has been exhausted").

Definition error_word_services : services :=
  constant_services (Returned [Some "Cut the Error rate of nightly loads by 30%"%string])
                    (Returned ["Cut the Error rate of nightly loads by 30%"%string])
                    (Returned "Score: 80"%string).

Definition upload_request (name content : string) : request :=
  {| method := POST;
     url := "http://localhost:5000/analyzer";
     form := [];
     files := [("resume_file"%string, {| filename := name; stream := content |})] |}.

Definition builder_request (f : list (string * string)) : request :=
  {| method := POST; url := "http://localhost:5000/builder"; form := f; files := [] |}.

Definition idle_world : world := {| fs := ∅; flashes := []; trace := [] |}.

(** The length of a filled template, piece by piece. *)
Fixpoint fill_length (ps : list piece) (kw : kwargs) : nat :=
  match ps with
  | [] => 0
  | Lit text :: rest => String.length text + fill_length rest kw
  | Field name :: rest =>
      match kw_lookup name kw with
      | Some v => String.length (py_str v) + fill_length rest kw
      | None => 0
      end
  end.

(** ** Fixed text around inserted values *)

(** Fixed pieces of text with a value between each two neighbours. *)
Fixpoint interleave (texts values : list string) : string :=
  match texts, values with
  | [], _ => EmptyString
  | text :: _, [] => text
  | text :: texts', value :: values' => text +:+ value +:+ interleave texts' values'
  end.

(** The text of the literal pieces of a template, in order. *)
Definition literals (ps : list piece) : list string :=
  flat_map (fun p => match p with Lit text => [text] | Field _ => [] end) ps.

(** What the builder hands to [format] for a field, rendered. *)
Definition field_text (f : list (string * string)) (name : string) : string :=
  py_str (of_option (multidict_get name f)).

(** The message of the flash a refused analyzer form is answered with. *)
Definition refusal (req : request) : string :=
  match multidict_get "resume_file" (files req) with
  | None => "No file part"
  | Some file =>
      if String.eqb (filename file) "" then "No selected file"
      else "Invalid file type. Please upload a PDF or DOCX."
  end.

(** A post that carries neither fields nor files. *)
Definition bare_post (address : string) : request :=
  {| method := POST; url := address; form := []; files := [] |}.

(** The fixed text of the analyzer prompt before the extracted text. *)
Definition analyzer_head : string :=
  match analyzer_pieces with
  | Lit text :: _ => text
  | _ => EmptyString
  end.

(** ** Lines of a text put together from parts *)

(** The lines of [a +:+ b] from those of [a] and of [b]: the last line
    of [a] runs on into the first line of [b]. *)
Fixpoint join_lines (xs ys : list string) : list string :=
  match xs with
  | [] => ys
  | [x] => match ys with
           | [] => [x]
           | y :: ys' => (x +:+ y) :: ys'
           end
  | x :: xs' => x :: join_lines xs' ys
  end.

(** The lines of [interleave texts values] when no value holds a
    newline, from the lines of the texts. *)
Fixpoint lines_interleave (texts : list (list string)) (values : list string)
  : list string :=
  match texts, values with
  | [], _ => [EmptyString]
  | ls :: _, [] => ls
  | ls :: texts', value :: values' =>
      join_lines ls (join_lines [value] (lines_interleave texts' values'))
  end.

Definition newline_free (s : string) : Prop :=
  PyStr.contains (String newline EmptyString) s = false.

(** The lines of each piece of fixed text of the builder template. *)
Definition builder_text_lines : list (list string) :=
  Eval vm_compute in map lines (literals builder_pieces).

(** ** The two blocks of the builder prompt that carry the form *)

(** The user-information listing, line by line, for a form. *)
Definition listing_lines (f : list (string * string)) : list string :=
  ["Name: " +:+ field_text f "name";
   "Email: " +:+ field_text f "email";
   "Phone: " +:+ field_text f "phone";
   "LinkedIn: " +:+ field_text f "linkedin";
   "GitHub: " +:+ field_text f "github";
   "Education: " +:+ field_text f "education";
   "Experience: " +:+ field_text f "experience";
   "Projects: " +:+ field_text f "projects";
   "Skills: " +:+ field_text f "skills";
   "Interests: " +:+ field_text f "interests";
   "Languages: " +:+ field_text f "languages"].

(** The line under [professional_summary:], which no field enters. *)
Definition summary_line : string :=
  "      - '[Generate a 2-3 sentence professional summary based on the user data above. Start with "
  +:+ dquote +:+ "I am a..." +:+ dquote +:+ "]'".

(** The YAML skeleton from [cv:] down to [design:], line by line, for a
    form: every field on the line of its own key. *)
Definition skeleton_lines (f : list (string * string)) : list string :=
  ["cv:";
   "  name: " +:+ field_text f "name";
   "  location: Location";
   "  email: " +:+ field_text f "email";
   "  phone: " +:+ field_text f "phone";
   "  social_networks:";
   "    - network: LinkedIn";
   "      username: " +:+ field_text f "linkedin";
   "    - network: GitHub";
   "      username: " +:+ field_text f "github";
   "  sections:";
   "    professional_summary:";
   summary_line;
   "    experience:";
   "      " +:+ field_text f "experience";
   "    education:";
   "      " +:+ field_text f "education";
   "    projects:";
   "      " +:+ field_text f "projects";
   "    skills:";
   "      " +:+ field_text f "skills";
   "    interests:";
   "      - bullet: " +:+ field_text f "interests";
   "    languages:";
   "      - bullet: " +:+ field_text f "languages";
   "design:"].

(** [block] stands in [ls] as a run of neighbouring lines. *)
Definition block_of (block ls : list string) : Prop :=
  exists before after, ls = before ++ block ++ after.

(** * Properties *)

(** ** Strings *)

Lemma append_nil (q : string) : EmptyString +:+ q = q.
Proof. reflexivity. Qed.

Lemma append_cons (c : ascii) (s q : string) :
  String c s +:+ q = String c (s +:+ q).
Proof. reflexivity. Qed.

Lemma prefix_app (sub s : string) :
  String.prefix sub s = true <-> exists q, s = sub +:+ q.
Proof.
  revert s; induction sub as [|c sub IH]; intros [|d s]; simpl.
  - split; [intros _; exists EmptyString; reflexivity | reflexivity].
  - split; [intros _; exists (String d s); reflexivity | reflexivity].
  - split; [discriminate | intros [q Hq]; discriminate].
  - destruct (ascii_dec c d) as [->|Hne].
    + rewrite IH. split; intros [q Hq]; exists q.
      * now rewrite Hq.
      * rewrite append_cons in Hq. now injection Hq.
    + split; [discriminate |].
      intros [q Hq]. rewrite append_cons in Hq. congruence.
Qed.

Lemma contains_nil (sub : string) :
  PyStr.contains sub EmptyString = String.prefix sub EmptyString.
Proof. apply orb_false_r. Qed.

Lemma contains_cons (sub : string) (c : ascii) (s : string) :
  PyStr.contains sub (String c s) =
  String.prefix sub (String c s) || PyStr.contains sub s.
Proof. reflexivity. Qed.

Lemma contains_iff (sub s : string) :
  PyStr.contains sub s = true <-> exists p q, s = p +:+ sub +:+ q.
Proof.
  induction s as [|c s IH].
  - rewrite contains_nil, prefix_app. split.
    + intros [q Hq]. exists EmptyString, q. exact Hq.
    + intros (p & q & Hpq). destruct p; [now exists q | discriminate].
  - rewrite contains_cons, orb_true_iff, IH, prefix_app. split.
    + intros [[q Hq] | (p & q & Hpq)].
      * exists EmptyString, q. exact Hq.
      * exists (String c p), q. rewrite append_cons. now rewrite Hpq.
    + intros (p & q & Hpq). destruct p as [|d p].
      * left. now exists q.
      * right. exists p, q. rewrite append_cons in Hpq. now injection Hpq.
Qed.

Lemma prefix_single (c d : ascii) (s : string) :
  String.prefix (String c EmptyString) (String d s) = Ascii.eqb d c.
Proof.
  simpl. destruct (ascii_dec c d) as [->|Hne].
  - rewrite Ascii.eqb_refl. now destruct s.
  - symmetry. apply Ascii.eqb_neq. congruence.
Qed.

Lemma rcut_None (c : ascii) (s : string) :
  PyStr.rcut c s = None <-> PyStr.contains (String c EmptyString) s = false.
Proof.
  induction s as [|d s IH].
  - split; reflexivity.
  - rewrite contains_cons, prefix_single. simpl.
    destruct (PyStr.rcut c s) as [[before after]|].
    + split; [discriminate |].
      intros H. apply orb_false_elim in H as [_ H].
      apply IH in H. discriminate.
    + destruct IH as [IH _]. rewrite (IH eq_refl), orb_false_r.
      destruct (Ascii.eqb d c); split; congruence.
Qed.

Lemma rcut_Some (c : ascii) (s before after : string) :
  PyStr.rcut c s = Some (before, after) <->
  s = before +:+ String c after /\
  PyStr.contains (String c EmptyString) after = false.
Proof.
  revert before; induction s as [|d s IH]; intros before.
  - split; [discriminate |].
    intros [H _]. destruct before; discriminate.
  - simpl. destruct (PyStr.rcut c s) as [[b a]|] eqn:Hcut.
    + split.
      * intros H. injection H as <- <-.
        destruct (IH b) as [IHb _]. destruct (IHb eq_refl) as [-> Hno].
        split; [reflexivity | exact Hno].
      * intros [H Hno]. destruct before as [|e before].
        -- rewrite append_nil in H. injection H as -> ->.
           apply rcut_None in Hno. congruence.
        -- rewrite append_cons in H. injection H as -> H.
           assert (Hs : Some (b, a) = Some (before, after))
             by (apply IH; split; assumption).
           congruence.
    + apply rcut_None in Hcut.
      destruct (Ascii.eqb d c) eqn:Hdc.
      * apply Ascii.eqb_eq in Hdc. subst d. split.
        -- intros H. injection H as <- <-. split; [reflexivity | exact Hcut].
        -- intros [H Hno]. destruct before as [|e before].
           ++ rewrite append_nil in H. now injection H as ->.
           ++ rewrite append_cons in H. injection H as _ H.
              exfalso. rewrite H in Hcut.
              assert (Ht : PyStr.contains (String c EmptyString)
                             (before +:+ String c after) = true)
                by (apply contains_iff; exists before, after; reflexivity).
              congruence.
      * split; [discriminate |].
        intros [H Hno]. exfalso. destruct before as [|e before].
        -- rewrite append_nil in H. injection H as -> _.
           rewrite Ascii.eqb_refl in Hdc. discriminate.
        -- rewrite append_cons in H. injection H as _ H.
           rewrite H in Hcut.
           assert (Ht : PyStr.contains (String c EmptyString)
                          (before +:+ String c after) = true)
             by (apply contains_iff; exists before, after; reflexivity).
           congruence.
Qed.

Lemma no_dot_iff (s : string) :
  PyStr.contains "." s = false <-> forall p q, s <> p +:+ "." +:+ q.
Proof.
  split.
  - intros H p q ->.
    assert (Ht : PyStr.contains "." (p +:+ "." +:+ q) = true)
      by (apply contains_iff; exists p, q; reflexivity).
    congruence.
  - intros H. destruct (PyStr.contains "." s) eqn:Hc; [| reflexivity].
    apply contains_iff in Hc as (p & q & ->). now destruct (H p q).
Qed.

Lemma in_allowed (ext : string) :
  PyStr.in_set ext ALLOWED_EXTENSIONS = true <-> ext = "pdf" \/ ext = "docx".
Proof.
  unfold PyStr.in_set, ALLOWED_EXTENSIONS. simpl.
  rewrite orb_false_r, orb_true_iff, !String.eqb_eq. reflexivity.
Qed.

(** [allowed_file] through the cut at the last dot. *)
Lemma allowed_file_cut (f : string) :
  allowed_file f =
  match PyStr.rcut "." f with
  | Some (_, ext) => Returned (PyStr.in_set (PyStr.lower ext) ALLOWED_EXTENSIONS)
  | None => Returned false
  end.
Proof.
  unfold allowed_file, PyStr.rsplit1.
  destruct (PyStr.rcut "." f) as [[before after]|] eqn:Hcut.
  - destruct (PyStr.contains "." f) eqn:Hc; [reflexivity |].
    apply rcut_None in Hc. congruence.
  - apply rcut_None in Hcut. change (String "." EmptyString) with "."%string in Hcut.
    now rewrite Hcut.
Qed.

(** ** The file validator *)

(** C1: [allowed_file f] is true exactly when [f] contains a dot and the
    lowercased text after its last dot is [pdf] or [docx]; the call always
    returns; [resume] is refused, [resume.PDF] accepted and
    [resume.pdf.exe] refused. *)
Theorem allowed_file_spec :
  (forall f,
      allowed_file f = Returned true <->
      (exists p q, f = p +:+ "." +:+ q) /\
      exists before ext,
        f = before +:+ "." +:+ ext /\
        (forall p q, ext <> p +:+ "." +:+ q) /\
        (PyStr.lower ext = "pdf" \/ PyStr.lower ext = "docx")) /\
  (forall f, exists b, allowed_file f = Returned b) /\
  allowed_file "resume" = Returned false /\
  allowed_file "resume.PDF" = Returned true /\
  allowed_file "resume.pdf.exe" = Returned false.
Proof.
  split; [| split; [| repeat split; reflexivity]].
  - intros f. rewrite allowed_file_cut. split.
    + destruct (PyStr.rcut "." f) as [[before ext]|] eqn:Hcut; [| discriminate].
      intros H. injection H as H. apply in_allowed in H.
      apply rcut_Some in Hcut as [-> Hno].
      split; [now exists before, ext |].
      exists before, ext. split; [reflexivity |]. split; [| exact H].
      now apply no_dot_iff.
    + intros (_ & before & ext & -> & Hno & Hext).
      apply no_dot_iff in Hno.
      assert (Hcut : PyStr.rcut "." (before +:+ "." +:+ ext) = Some (before, ext))
        by (apply rcut_Some; split; [reflexivity | exact Hno]).
      rewrite Hcut. f_equal. now apply in_allowed.
  - intros f. rewrite allowed_file_cut.
    destruct (PyStr.rcut "." f) as [[before ext]|]; eauto.
Qed.




(** ** Templates *)

Lemma omap_Returned {A B : Type} (f : A -> B) (o : outcome A) (b : B) :
  omap f o = Returned b -> exists a, o = Returned a /\ b = f a.
Proof. destruct o as [a|e]; [| discriminate]. intros [= <-]. now exists a. Qed.

Lemma fill_lit_cons (c : ascii) (ps : list piece) (kw : kwargs) :
  fill (lit_cons c ps) kw = omap (String c) (fill ps kw).
Proof.
  destruct ps as [|[text|name] rest]; simpl.
  - reflexivity.
  - now destruct (fill rest kw).
  - now destruct (kw_lookup name kw) as [v|]; [destruct (fill rest kw) |].
Qed.

(** Reading a template once and filling the pieces is what [format]
    does in one pass. *)
Lemma format_from_pieces (kw : kwargs) (n : nat) :
  forall (s : string) (field : option string) (ps : list piece),
    String.length s <= n ->
    pieces_from s field = Returned ps ->
    format_from kw s field = fill ps kw.
Proof.
  induction n as [|n IH]; intros s field ps Hlen Hps.
  - destruct s; [| simpl in Hlen; lia].
    destruct field; simpl in Hps; [discriminate |].
    injection Hps as <-. reflexivity.
  - destruct s as [|c rest].
    { destruct field; simpl in Hps; [discriminate |].
      injection Hps as <-. reflexivity. }
    simpl in Hlen. destruct field as [name|]; simpl in Hps |- *.
    + destruct (Ascii.eqb c "}").
      * destruct (plain_name name); [| discriminate].
        apply omap_Returned in Hps as (qs & Hqs & ->). simpl.
        destruct (kw_lookup name kw) as [v|]; [| reflexivity].
        now rewrite (IH rest None qs) by (assumption || lia).
      * apply IH; [lia | exact Hps].
    + destruct (Ascii.eqb c "{").
      * destruct rest as [|c' rest']; [discriminate |].
        simpl in Hlen. destruct (Ascii.eqb c' "{").
        -- apply omap_Returned in Hps as (qs & Hqs & ->).
           rewrite fill_lit_cons.
           now rewrite (IH rest' None qs) by (assumption || lia).
        -- apply IH; [simpl; lia | exact Hps].
      * destruct (Ascii.eqb c "}").
        -- destruct rest as [|c' rest']; [discriminate |].
           simpl in Hlen. destruct (Ascii.eqb c' "}"); [| discriminate].
           apply omap_Returned in Hps as (qs & Hqs & ->).
           rewrite fill_lit_cons.
           now rewrite (IH rest' None qs) by (assumption || lia).
        -- apply omap_Returned in Hps as (qs & Hqs & ->).
           rewrite fill_lit_cons.
           now rewrite (IH rest None qs) by (assumption || lia).
Qed.

Lemma format_pieces (template : string) (ps : list piece) (kw : kwargs) :
  pieces template = Returned ps -> format template kw = fill ps kw.
Proof.
  intros H. eapply format_from_pieces; [apply Nat.le_refl | exact H].
Qed.

Lemma builder_pieces_ok : pieces RESUME_BUILDER_PROMPT = Returned builder_pieces.
Proof. vm_compute. reflexivity. Qed.

Lemma analyzer_pieces_ok : pieces RESUME_ANALYZER_PROMPT = Returned analyzer_pieces.
Proof. vm_compute. reflexivity. Qed.

Lemma analyzer_prompt_total (resume_text : string) :
  exists prompt, analyzer_prompt resume_text = Returned prompt.
Proof.
  unfold analyzer_prompt.
  rewrite (format_pieces _ _ _ analyzer_pieces_ok).
  unfold analyzer_pieces. simpl. eauto.
Qed.

Lemma builder_prompt_fill (f : list (string * string)) :
  builder_prompt f = fill builder_pieces (builder_kwargs f).
Proof. apply format_pieces, builder_pieces_ok. Qed.

Lemma builder_prompt_total (f : list (string * string)) :
  exists prompt, builder_prompt f = Returned prompt.
Proof.
  rewrite builder_prompt_fill.
  unfold builder_pieces, builder_kwargs. simpl. eauto.
Qed.

Lemma in_set_In (x : string) (l : list string) :
  PyStr.in_set x l = true -> In x l.
Proof.
  unfold PyStr.in_set. rewrite existsb_exists.
  intros (y & Hy & Heq). apply String.eqb_eq in Heq. now subst y.
Qed.

Ltac in_lines := apply in_set_In; vm_compute; reflexivity.

(** C2, as the code has it: rendered for a filled-in form (name
    [Jane Doe], email [jane@x.com] and nine more literal values), the
    builder prompt holds each value exactly twice, once in its slot of
    the user-information listing and once in its slot of the YAML
    skeleton: the listing stands in the prompt line for line, each value
    after its own label, and so does the skeleton from [cv:] to
    [design:], each value on the line of its own key.  The template
    itself names each of the eleven fields in two replacement fields,
    and the keys under [sections:] of the skeleton read
    [professional_summary], [experience], [education], [projects],
    [skills], [interests], [languages], in that order. *)
Theorem builder_prompt_slots :
  exists prompt,
    builder_prompt jane_form = Returned prompt /\
    Forall (in_both_slots prompt) jane_form /\
    block_of (listing_lines jane_form) (lines prompt) /\
    block_of (skeleton_lines jane_form) (lines prompt) /\
    Forall (fun name => count_occ string_dec (field_names builder_pieces) name = 2)
           builder_fields /\
    yaml_section_keys prompt =
      ["professional_summary"; "experience"; "education"; "projects";
       "skills"; "interests"; "languages"]%string.
Proof.
  eexists. split; [vm_compute; reflexivity |].
  split; [| split; [| split; [| split]]].
  - unfold jane_form.
    repeat (constructor;
            [unfold in_both_slots; cbn [multidict_get slots String.eqb Ascii.eqb Bool.eqb];
             split; [in_lines | split; [in_lines | vm_compute; reflexivity]] |]).
    constructor.
  - match goal with
    | |- block_of _ ?ls => exists (firstn 12 ls), (skipn 23 ls)
    end.
    vm_compute. reflexivity.
  - match goal with
    | |- block_of _ ?ls => exists (firstn 26 ls), (skipn 52 ls)
    end.
    vm_compute. reflexivity.
  - unfold builder_fields.
    repeat (constructor; [vm_compute; reflexivity |]).
    constructor.
  - vm_compute. reflexivity.
Qed.

(** C2, as the specification words it, fails: the name occurs twice in the
    rendered prompt, not once. *)
Lemma jane_doe_not_once :
  exists prompt,
    builder_prompt jane_form = Returned prompt /\
    PyStr.occurrences "Jane Doe" prompt <> 1.
Proof.
  eexists. split; [vm_compute; reflexivity |].
  vm_compute. discriminate.
Qed.

Lemma length_append (s t : string) :
  String.length (s +:+ t) = String.length s + String.length t.
Proof.
  induction s as [|c s IH]; [reflexivity |].
  rewrite append_cons. simpl. now rewrite IH.
Qed.

Lemma fill_length_ok (ps : list piece) (kw : kwargs) (s : string) :
  fill ps kw = Returned s -> String.length s = fill_length ps kw.
Proof.
  revert s; induction ps as [|[text|name] rest IH]; intros s; simpl.
  - now intros [= <-].
  - intros H. apply omap_Returned in H as (t & Ht & ->).
    rewrite length_append. now rewrite (IH t Ht).
  - destruct (kw_lookup name kw) as [v|]; [| discriminate].
    intros H. apply omap_Returned in H as (t & Ht & ->).
    rewrite length_append. now rewrite (IH t Ht).
Qed.

(** ** The builder form *)

(** C10: a form field the request does not carry is read as [None] by
    [request.form.get], and [format] is handed a value that renders as the
    four characters [None]: the prompt is the one a form carrying the
    literal text [None] in that field yields, and it is not the prompt an
    empty field yields. *)
Theorem builder_absent_field_is_None (f : list (string * string)) (k : string) :
  In k builder_fields ->
  multidict_get k f = None ->
  (exists v, kw_lookup k (builder_kwargs f) = Some v /\ py_str v = "None"%string) /\
  (exists prompt, builder_prompt f = Returned prompt) /\
  builder_prompt f = builder_prompt ((k, "None"%string) :: f) /\
  builder_prompt f <> builder_prompt ((k, EmptyString) :: f).
Proof.
  intros Hk Hnone.
  split; [| split; [apply builder_prompt_total | split]].
  - unfold builder_kwargs, builder_fields in *. simpl in Hk.
    repeat (destruct Hk as [<- | Hk];
            [cbn [kw_lookup String.eqb Ascii.eqb Bool.eqb];
             rewrite Hnone; now exists PyNone |]).
    destruct Hk.
  - unfold builder_prompt, builder_kwargs, builder_fields in *.
    simpl in Hk.
    repeat (destruct Hk as [<- | Hk];
            [cbn [multidict_get String.eqb Ascii.eqb Bool.eqb];
             rewrite Hnone; reflexivity |]).
    destruct Hk.
  - destruct (builder_prompt_total f) as [p Hp].
    destruct (builder_prompt_total ((k, EmptyString) :: f)) as [q Hq].
    rewrite Hp, Hq. intros [= ->].
    rewrite builder_prompt_fill in Hp, Hq.
    apply fill_length_ok in Hp, Hq.
    rewrite Hp in Hq. clear Hp.
    unfold builder_kwargs, builder_fields in *. simpl in Hk.
    repeat (destruct Hk as [<- | Hk];
            [cbn [multidict_get String.eqb Ascii.eqb Bool.eqb] in Hq;
             rewrite Hnone in Hq;
             cbn [fill_length builder_pieces kw_lookup String.eqb Ascii.eqb
                  Bool.eqb of_option py_str String.length] in Hq;
             lia |]).
    destruct Hk.
Qed.

Lemma builder_absent_field_is_None_witness :
  In "email"%string builder_fields /\
  multidict_get "email" [("name"%string, "Jane Doe"%string)] = None /\
  builder_prompt [("name"%string, "Jane Doe"%string)] =
  builder_prompt [("email"%string, "None"%string); ("name"%string, "Jane Doe"%string)].
Proof.
  assert (Hin : In "email"%string builder_fields) by (right; left; reflexivity).
  split; [exact Hin |]. split; [reflexivity |].
  exact (proj1 (proj2 (proj2 (builder_absent_field_is_None
                                [("name"%string, "Jane Doe"%string)] "email"
                                Hin eq_refl)))).
Defined.

(** ** Runs of the monad *)

Lemma append_empty_r (s : string) : s +:+ EmptyString = s.
Proof.
  induction s as [|c s IH]; [reflexivity |].
  rewrite append_cons. now rewrite IH.
Qed.

Lemma append_assoc (s t u : string) : (s +:+ t) +:+ u = s +:+ (t +:+ u).
Proof.
  induction s as [|c s IH]; [reflexivity |].
  rewrite !append_cons. now rewrite IH.
Qed.

Lemma or_empty_append (page : option string) (rest : string) :
  or_empty page +:+ rest = match page with Some t => t +:+ rest | None => rest end.
Proof.
  destruct page as [t|]; [| reflexivity].
  unfold or_empty. destruct (String.eqb_spec t ""); [now subst t | reflexivity].
Qed.

Lemma fold_pages (pages : list (option string)) (text : string) :
  fold_left (fun text page => text +:+ or_empty page) pages text =
  text +:+ page_text pages.
Proof.
  revert text; induction pages as [|page pages IH]; intros text; simpl.
  - now rewrite append_empty_r.
  - rewrite IH, append_assoc. now rewrite or_empty_append.
Qed.

Lemma fold_paragraphs (paragraphs : list string) (text : string) :
  fold_left (fun text paragraph => text +:+ paragraph +:+ String (ascii_of_nat 10) EmptyString)
            paragraphs text =
  text +:+ paragraph_text paragraphs.
Proof.
  revert text; induction paragraphs as [|t paragraphs IH]; intros text; simpl.
  - now rewrite append_empty_r.
  - rewrite IH, !append_assoc. reflexivity.
Qed.

Lemma extract_run (sv : services) (path : string) (w : world) :
  extract_text_from_file sv path w =
  (Returned (extracted_text sv (fs w) path), add_events w (extract_events path)).
Proof.
  unfold extract_text_from_file, extracted_text, extract_events.
  destruct (PyStr.endswith path ".pdf").
  - unfold try_except, bind, open_pdf, log, ret, add_events. simpl.
    destruct (pdfplumber_pages sv (fs w) path) as [pages|e]; [| reflexivity].
    now rewrite fold_pages.
  - destruct (PyStr.endswith path ".docx").
    + unfold try_except, bind, open_docx, log, ret, add_events. simpl.
      destruct (docx_paragraphs sv (fs w) path) as [paragraphs|e]; [| reflexivity].
      now rewrite fold_paragraphs.
    + unfold ret, add_events. destruct w. simpl. now rewrite app_nil_r.
Qed.

Lemma bind_Returned {A B : Type} (m : Flask A) (k : A -> Flask B)
      (w w' : world) (a : A) :
  m w = (Returned a, w') -> bind m k w = k a w'.
Proof. unfold bind. now intros ->. Qed.

Lemma os_remove_run (path content : string) (w : world) :
  fs w !! path = Some content ->
  os_remove path w =
  (Returned tt,
   {| fs := delete path (fs w); flashes := flashes w;
      trace := trace w ++ [Removed path] |}).
Proof. unfold os_remove. now intros ->. Qed.

Lemma allowed_nonempty (name : string) :
  allowed_file name = Returned true -> String.eqb name "" = false.
Proof. destruct name; [discriminate | reflexivity]. Qed.

(** An accepted upload: saved, read, removed, and then the rest of the
    handler runs on the extracted text. *)
Lemma analyzer_upload (sv : services) (req : request) (w : world)
      (file : FileStorage) :
  method req = POST ->
  multidict_get "resume_file" (files req) = Some file ->
  allowed_file (filename file) = Returned true ->
  let path := os_path_join UPLOAD_FOLDER (filename file) in
  let stored := <[path := stream file]> (fs w) in
  analyzer sv req w =
  analyzer_tail sv (extracted_text sv stored path)
    {| fs := delete path stored;
       flashes := flashes w;
       trace := trace w ++ Saved path :: extract_events path ++ [Removed path] |}.
Proof.
  intros Hm Hfile Hok path stored.
  unfold analyzer. rewrite Hm, Hfile, (allowed_nonempty _ Hok).
  unfold file_truthy. rewrite (allowed_nonempty _ Hok). simpl negb. cbv iota.
  rewrite Hok.
  rewrite (bind_Returned _ _ w w true) by reflexivity.
  fold path.
  erewrite bind_Returned by reflexivity.
  erewrite bind_Returned by apply extract_run.
  erewrite bind_Returned by (apply (os_remove_run _ (stream file)); apply lookup_insert_eq).
  unfold analyzer_tail, add_events. simpl fs. simpl flashes. simpl trace.
  rewrite <- !app_assoc. reflexivity.
Qed.

Lemma allowed_file_total (f : string) : exists b, allowed_file f = Returned b.
Proof.
  rewrite allowed_file_cut.
  destruct (PyStr.rcut "." f) as [[before ext]|]; eauto.
Qed.

Lemma run_events_app {A : Type} (m : Flask A) (w : world) (evs : list event) :
  trace (snd (m w)) = trace w ++ evs -> run_events m w = evs.
Proof. unfold run_events. intros ->. apply drop_app_length. Qed.

Lemma run_events_same {A : Type} (m : Flask A) (w : world) :
  trace (snd (m w)) = trace w -> run_events m w = [].
Proof. intros H. apply run_events_app. now rewrite app_nil_r. Qed.

Lemma analyzer_tail_error (sv : services) (text : string) (w : world) :
  PyStr.contains "Error" text = true ->
  analyzer_tail sv text w =
  (Returned (Redirect "/analyzer"),
   add_flash w ("Error processing file: " +:+ text) "danger").
Proof. unfold analyzer_tail. now intros ->. Qed.

Lemma analyzer_tail_clean (sv : services) (text : string) (w : world) :
  PyStr.contains "Error" text = false ->
  exists prompt,
    analyzer_prompt text = Returned prompt /\
    analyzer_tail sv text w =
    let w' := add_events w [Generated model_pro prompt] in
    let failed e :=
      (Returned (Redirect "/analyzer"),
       add_flash w' ("Error analyzing resume: " +:+ e) "danger") in
    match generate_content sv model_pro prompt with
    | Returned reply =>
        match markdown sv reply with
        | Returned html =>
            (Returned (RenderTemplate "analyzer.html" [("results"%string, PyStr html)]), w')
        | Raised e => failed e
        end
    | Raised e => failed e
    end.
Proof.
  intros Hclean. destruct (analyzer_prompt_total text) as [prompt Hprompt].
  exists prompt. split; [exact Hprompt |].
  unfold analyzer_tail. rewrite Hclean, Hprompt.
  unfold bind, lift, try_except, generate, log, flash, url_for, ret. simpl.
  destruct (generate_content sv model_pro prompt) as [reply|e]; [| reflexivity].
  now destruct (markdown sv reply).
Qed.

(** A request that is not an accepted upload touches neither the file
    system nor the trace. *)
Lemma analyzer_cases (sv : services) (req : request) (w : world) :
  (trace (snd (analyzer sv req w)) = trace w /\
   fs (snd (analyzer sv req w)) = fs w /\
   exists resp, fst (analyzer sv req w) = Returned resp) \/
  (exists file,
      method req = POST /\
      multidict_get "resume_file" (files req) = Some file /\
      allowed_file (filename file) = Returned true).
Proof.
  unfold analyzer.
  destruct (method req) eqn:Hm; [left; simpl; eauto |].
  destruct (multidict_get "resume_file" (files req)) as [file|] eqn:Hfile;
    [| left; simpl; eauto].
  destruct (String.eqb (filename file) "") eqn:Hname; [left; simpl; eauto |].
  unfold file_truthy. rewrite Hname. simpl negb. cbv iota.
  destruct (allowed_file_total (filename file)) as [[|] Hok].
  - right. now exists file.
  - left. rewrite Hok. simpl. eauto.
Qed.

Lemma builder_post (sv : services) (req : request) (w : world) :
  method req = POST ->
  exists prompt,
    builder_prompt (form req) = Returned prompt /\
    builder sv req w =
    let w' := add_events w [Generated model_flash prompt] in
    match generate_content sv model_flash prompt with
    | Returned yaml_code =>
        (Returned (RenderTemplate "builder.html" [("yaml_code"%string, PyStr yaml_code)]), w')
    | Raised e =>
        (Returned (Redirect "/builder"),
         add_flash w' ("Error generating resume: " +:+ e) "danger")
    end.
Proof.
  intros Hm. destruct (builder_prompt_total (form req)) as [prompt Hprompt].
  exists prompt. split; [exact Hprompt |].
  unfold builder. rewrite Hm, Hprompt.
  unfold bind, lift, try_except, generate, log, flash, url_for, ret. simpl.
  now destruct (generate_content sv model_flash prompt).
Qed.

(** ** The text extractor *)

Lemma endswith_cons (c : ascii) (s suf : string) :
  PyStr.endswith (String c s) suf = String.eqb (String c s) suf || PyStr.endswith s suf.
Proof. reflexivity. Qed.

Lemma docx_not_pdf (path : string) :
  PyStr.endswith path ".docx" = true -> PyStr.endswith path ".pdf" = false.
Proof.
  induction path as [|c path IH]; [discriminate |].
  rewrite !endswith_cons. intros H. apply orb_true_iff in H as [H | H].
  - apply String.eqb_eq in H. injection H as -> ->. reflexivity.
  - rewrite (IH H), orb_false_r.
    destruct (String.eqb_spec (String c path) ".pdf") as [Heq|]; [| reflexivity].
    injection Heq as _ ->. discriminate.
Qed.

(** C5: when the library raises while a [.pdf] (a [.docx]) path is being
    read, [extract_text_from_file] returns the PDF (the DOCX) error prefix
    followed by the message of the exception; in every case it returns a
    string and raises nothing. *)
Theorem extraction_errors_are_strings
        (sv : services) (path : string) (w : world) (e : string) :
  (PyStr.endswith path ".pdf" = true ->
   pdfplumber_pages sv (fs w) path = Raised e ->
   fst (extract_text_from_file sv path w) =
   Returned ("Error extracting text from PDF: " +:+ e)) /\
  (PyStr.endswith path ".docx" = true ->
   docx_paragraphs sv (fs w) path = Raised e ->
   fst (extract_text_from_file sv path w) =
   Returned ("Error extracting text from DOCX: " +:+ e)) /\
  (exists text, fst (extract_text_from_file sv path w) = Returned text).
Proof.
  rewrite extract_run. unfold extracted_text. simpl fst.
  split; [| split].
  - now intros -> ->.
  - intros Hdocx Hraised. now rewrite (docx_not_pdf _ Hdocx), Hdocx, Hraised.
  - eauto.
Qed.

Lemma extraction_errors_are_strings_witness :
  fst (extract_text_from_file unreadable_services "uploads/cv.pdf" idle_world) =
  Returned "Error extracting text from PDF: No /Root object! - Is this really a PDF?"%string /\
  fst (extract_text_from_file unreadable_services "uploads/cv.docx" idle_world) =
  Returned "Error extracting text from DOCX: File is not a zip file"%string.
Proof.
  split.
  - exact (proj1 (extraction_errors_are_strings
                    unreadable_services "uploads/cv.pdf" idle_world
                    "No /Root object! - Is this really a PDF?")
                 eq_refl eq_refl).
  - exact (proj1 (proj2 (extraction_errors_are_strings
                           unreadable_services "uploads/cv.docx" idle_world
                           "File is not a zip file"))
                 eq_refl eq_refl).
Defined.

(** C6: for a readable [.pdf] path the result is the text of the pages
    joined in page order, a page without text adding nothing; for a
    readable [.docx] path it is the text of the paragraphs in order, each
    followed by a newline. *)
Theorem extraction_concatenates (sv : services) (path : string) (w : world) :
  (forall pages,
      PyStr.endswith path ".pdf" = true ->
      pdfplumber_pages sv (fs w) path = Returned pages ->
      fst (extract_text_from_file sv path w) = Returned (page_text pages)) /\
  (forall paragraphs,
      PyStr.endswith path ".docx" = true ->
      docx_paragraphs sv (fs w) path = Returned paragraphs ->
      fst (extract_text_from_file sv path w) = Returned (paragraph_text paragraphs)).
Proof.
  rewrite extract_run. unfold extracted_text. simpl fst. split.
  - now intros pages -> ->.
  - intros paragraphs Hdocx Hread.
    now rewrite (docx_not_pdf _ Hdocx), Hdocx, Hread.
Qed.

Lemma extraction_concatenates_witness :
  fst (extract_text_from_file healthy_services "uploads/cv.pdf" idle_world) =
  Returned "Jane DoeAnalyst"%string /\
  fst (extract_text_from_file healthy_services "uploads/cv.docx" idle_world) =
  Returned "Jane Doe
Analyst
"%string.
Proof.
  split.
  - exact (proj1 (extraction_concatenates healthy_services "uploads/cv.pdf" idle_world)
                 [Some "Jane Doe"%string; None; Some "Analyst"%string]
                 eq_refl eq_refl).
  - exact (proj2 (extraction_concatenates healthy_services "uploads/cv.docx" idle_world)
                 ["Jane Doe"%string; "Analyst"%string]
                 eq_refl eq_refl).
Defined.

(** ** The handlers *)

(** C3: once the upload has been read, the analyzer takes its extraction
    failure path (a flash of the text, a redirect, no call to a model)
    exactly when the text returned by the extraction contains [Error];
    so a readable document whose own text contains [Error] takes that
    path too. *)
Theorem analyzer_error_substring
        (sv : services) (req : request) (w : world) (file : FileStorage) :
  method req = POST ->
  multidict_get "resume_file" (files req) = Some file ->
  allowed_file (filename file) = Returned true ->
  let path := os_path_join UPLOAD_FOLDER (filename file) in
  let stored := snd (save file path w) in
  exists resume_text,
    fst (extract_text_from_file sv path stored) = Returned resume_text /\
    (extraction_failure_path w (analyzer sv req w) resume_text <->
     PyStr.contains "Error" resume_text = true) /\
    (forall pages,
        PyStr.endswith path ".pdf" = true ->
        pdfplumber_pages sv (fs stored) path = Returned pages ->
        PyStr.contains "Error" (page_text pages) = true ->
        extraction_failure_path w (analyzer sv req w) (page_text pages)) /\
    (forall paragraphs,
        PyStr.endswith path ".docx" = true ->
        docx_paragraphs sv (fs stored) path = Returned paragraphs ->
        PyStr.contains "Error" (paragraph_text paragraphs) = true ->
        extraction_failure_path w (analyzer sv req w) (paragraph_text paragraphs)).
Proof.
  intros Hm Hfile Hok path stored.
  pose proof (analyzer_upload sv req w file Hm Hfile Hok) as Hrun.
  cbv zeta in Hrun. fold path in Hrun.
  change (<[path:=stream file]> (fs w)) with (fs stored) in Hrun.
  set (text := extracted_text sv (fs stored) path) in *.
  assert (Hfail : PyStr.contains "Error" text = true ->
                  extraction_failure_path w (analyzer sv req w) text).
  { intros Herr. rewrite Hrun, (analyzer_tail_error _ _ _ Herr).
    unfold extraction_failure_path, add_flash. simpl.
    split; [reflexivity |]. split; [reflexivity |].
    intros m prompt. rewrite drop_app_length.
    intros [H | H]; [discriminate |].
    apply in_app_or in H as [H | [H | []]]; [| discriminate].
    unfold extract_events in H.
    destruct (PyStr.endswith path ".pdf");
      [| destruct (PyStr.endswith path ".docx")];
      simpl in H; intuition discriminate. }
  exists text. split; [now rewrite extract_run |]. split; [| split].
  - split; [| exact Hfail].
    intros (_ & _ & Hquiet).
    destruct (PyStr.contains "Error" text) eqn:Herr; [reflexivity | exfalso].
    destruct (analyzer_tail_clean sv text
                {| fs := delete path (fs stored); flashes := flashes w;
                   trace := trace w ++ Saved path :: extract_events path ++ [Removed path] |}
                Herr) as (prompt & _ & Htail).
    rewrite Hrun, Htail in Hquiet. apply (Hquiet model_pro prompt).
    cbv zeta.
    destruct (generate_content sv model_pro prompt) as [reply|e];
      [destruct (markdown sv reply) |];
      unfold add_flash, add_events; simpl;
      rewrite <- app_assoc, drop_app_length;
      apply in_or_app; right; now left.
  - intros pages Hpdf Hread Herr.
    assert (Htext : text = page_text pages)
      by (unfold text, extracted_text; now rewrite Hpdf, Hread).
    rewrite <- Htext in *. now apply Hfail.
  - intros paragraphs Hdocx Hread Herr.
    assert (Htext : text = paragraph_text paragraphs)
      by (unfold text, extracted_text;
          now rewrite (docx_not_pdf _ Hdocx), Hdocx, Hread).
    rewrite <- Htext in *. now apply Hfail.
Qed.

Lemma analyzer_error_substring_witness :
  extraction_failure_path
    idle_world
    (analyzer error_word_services (upload_request "cv.pdf" "%PDF-1.7") idle_world)
    "Cut the Error rate of nightly loads by 30%".
Proof.
  destruct (analyzer_error_substring
              error_word_services (upload_request "cv.pdf" "%PDF-1.7") idle_world
              {| filename := "cv.pdf"; stream := "%PDF-1.7" |}
              eq_refl eq_refl eq_refl)
    as (text & _ & _ & Hpdf & _).
  exact (Hpdf [Some "Cut the Error rate of nightly loads by 30%"%string]
              eq_refl eq_refl eq_refl).
Defined.

(** The rest of the handler leaves the file system alone, appends at most
    the call to the model to the trace, and returns a response. *)
Lemma analyzer_tail_world (sv : services) (text : string) (w : world) :
  exists resp evs,
    fst (analyzer_tail sv text w) = Returned resp /\
    fs (snd (analyzer_tail sv text w)) = fs w /\
    trace (snd (analyzer_tail sv text w)) = trace w ++ evs /\
    forall path, ~ In (Saved path) evs.
Proof.
  destruct (PyStr.contains "Error" text) eqn:Herr.
  - rewrite (analyzer_tail_error _ _ _ Herr). simpl.
    exists (Redirect "/analyzer"), []. rewrite app_nil_r. auto.
  - destruct (analyzer_tail_clean sv text w Herr) as (prompt & _ & ->).
    cbv zeta.
    destruct (generate_content sv model_pro prompt) as [reply|e];
      [destruct (markdown sv reply) |]; simpl;
      eexists _, [Generated model_pro prompt];
      (repeat split; [intros path [H | []]; discriminate]).
Qed.

(** C4: when the analyzer has saved an upload at a path, the handler
    returns a response, the removal of that path follows its save in the
    trace, and no file is left at that path, whatever the extraction and
    the model did. *)
Theorem analyzer_removes_upload
        (sv : services) (req : request) (w : world) (path : string) :
  In (Saved path) (run_events (analyzer sv req) w) ->
  fs (snd (analyzer sv req w)) !! path = None /\
  (exists resp, fst (analyzer sv req w) = Returned resp) /\
  exists before after,
    run_events (analyzer sv req) w = before ++ Saved path :: after /\
    In (Removed path) after.
Proof.
  intros Hsaved.
  destruct (analyzer_cases sv req w) as [(Htrace & _ & _) | (file & Hm & Hfile & Hok)].
  - rewrite (run_events_same _ _ Htrace) in Hsaved. destruct Hsaved.
  - pose proof (analyzer_upload sv req w file Hm Hfile Hok) as Hrun.
    cbv zeta in Hrun.
    set (p := os_path_join UPLOAD_FOLDER (filename file)) in *.
    set (text := extracted_text sv (<[p:=stream file]> (fs w)) p) in *.
    set (w1 := {| fs := delete p (<[p:=stream file]> (fs w)); flashes := flashes w;
                  trace := trace w ++ Saved p :: extract_events p ++ [Removed p] |}) in *.
    destruct (analyzer_tail_world sv text w1) as (resp & evs & Hresp & Hfs & Htrace & Hnone).
    assert (Hev : run_events (analyzer sv req) w =
                  Saved p :: extract_events p ++ [Removed p] ++ evs).
    { apply run_events_app. rewrite Hrun, Htrace. unfold w1. simpl.
      rewrite <- app_assoc. simpl. rewrite <- app_assoc. reflexivity. }
    rewrite Hev in Hsaved |- *.
    assert (Hp : path = p).
    { destruct Hsaved as [H | H]; [now injection H |].
      apply in_app_or in H as [H | H].
      - unfold extract_events in H.
        destruct (PyStr.endswith p ".pdf");
          [| destruct (PyStr.endswith p ".docx")];
          simpl in H; intuition discriminate.
      - destruct H as [H | H]; [discriminate | now destruct (Hnone path)]. }
    subst path. rewrite Hrun. split; [| split].
    + rewrite Hfs. unfold w1. simpl. apply lookup_delete_eq.
    + eauto.
    + exists [], (extract_events p ++ [Removed p] ++ evs). split; [reflexivity |].
      apply in_or_app. right. now left.
Qed.

Lemma analyzer_removes_upload_witness :
  fs (snd (analyzer healthy_services (upload_request "cv.pdf" "%PDF-1.7") idle_world))
    !! "uploads/cv.pdf" = None /\
  fs (snd (analyzer unreadable_services (upload_request "cv.docx" "PK") idle_world))
    !! "uploads/cv.docx" = None /\
  fs (snd (analyzer provider_down_services (upload_request "cv.pdf" "%PDF-1.7") idle_world))
    !! "uploads/cv.pdf" = None.
Proof.
  split; [| split].
  - refine (proj1 (analyzer_removes_upload
                     healthy_services (upload_request "cv.pdf" "%PDF-1.7")
                     idle_world "uploads/cv.pdf" _)).
    vm_compute. left. reflexivity.
  - refine (proj1 (analyzer_removes_upload
                     unreadable_services (upload_request "cv.docx" "PK")
                     idle_world "uploads/cv.docx" _)).
    vm_compute. left. reflexivity.
  - refine (proj1 (analyzer_removes_upload
                     provider_down_services (upload_request "cv.pdf" "%PDF-1.7")
                     idle_world "uploads/cv.pdf" _)).
    vm_compute. left. reflexivity.
Defined.

Lemma extract_events_generated (path : string) (m : model) (prompt : string) :
  ~ In (Generated m prompt) (extract_events path).
Proof.
  unfold extract_events.
  destruct (PyStr.endswith path ".pdf");
    [| destruct (PyStr.endswith path ".docx")];
    simpl; intuition discriminate.
Qed.

(** C7 at the file name [resume.PDF]: the validator accepts it, the path
    it is saved at ends neither in [.pdf] nor in [.docx], the extraction
    opens nothing and returns the empty text, and the analyzer sends the
    model a prompt built on that empty text. *)
Theorem uppercase_extension_skips_extraction
        (sv : services) (w : world) (content : string) :
  let path := os_path_join UPLOAD_FOLDER "resume.PDF" in
  allowed_file "resume.PDF" = Returned true /\
  path = "uploads/resume.PDF"%string /\
  PyStr.endswith path ".pdf" = false /\
  PyStr.endswith path ".docx" = false /\
  extract_text_from_file sv path w = (Returned EmptyString, w) /\
  exists prompt,
    analyzer_prompt EmptyString = Returned prompt /\
    run_events (analyzer sv (upload_request "resume.PDF" content)) w =
    [Saved path; Removed path; Generated model_pro prompt].
Proof.
  intros path.
  assert (Hpath : path = "uploads/resume.PDF"%string) by reflexivity.
  clearbody path. subst path.
  split; [reflexivity |]. split; [reflexivity |].
  split; [reflexivity |]. split; [reflexivity |]. split.
  - rewrite extract_run. unfold add_events. destruct w. simpl.
    now rewrite app_nil_r.
  - pose proof (analyzer_upload sv (upload_request "resume.PDF" content) w
                  {| filename := "resume.PDF"; stream := content |}
                  eq_refl eq_refl eq_refl) as Hrun.
    cbv zeta in Hrun.
    change (os_path_join UPLOAD_FOLDER
              (filename {| filename := "resume.PDF"; stream := content |}))
      with "uploads/resume.PDF"%string in Hrun.
    change (extracted_text sv _ "uploads/resume.PDF") with EmptyString in Hrun.
    change (extract_events "uploads/resume.PDF") with (@nil event) in Hrun.
    match type of Hrun with
    | _ = analyzer_tail _ _ ?w1 =>
        destruct (analyzer_tail_clean sv EmptyString w1 eq_refl)
          as (prompt & Hprompt & Htail)
    end.
    exists prompt. split; [exact Hprompt |].
    apply run_events_app. rewrite Hrun, Htail. cbv zeta.
    destruct (generate_content sv model_pro prompt) as [reply|e];
      [destruct (markdown sv reply) |];
      simpl; rewrite <- app_assoc; reflexivity.
Qed.

(** C8: when the call a handler makes to the model raises, the builder
    and the analyzer alike return a redirect to their own page and leave
    one flash of category [danger] carrying the message of the
    exception; neither raises. *)
Theorem provider_failure_redirects
        (sv : services) (req : request) (w : world) (prompt e : string) :
  (In (Generated model_flash prompt) (run_events (builder sv req) w) ->
   generate_content sv model_flash prompt = Raised e ->
   fst (builder sv req w) = Returned (Redirect "/builder") /\
   flashes (snd (builder sv req w)) =
   flashes w ++ [("Error generating resume: " +:+ e, "danger"%string)]) /\
  (In (Generated model_pro prompt) (run_events (analyzer sv req) w) ->
   generate_content sv model_pro prompt = Raised e ->
   fst (analyzer sv req w) = Returned (Redirect "/analyzer") /\
   flashes (snd (analyzer sv req w)) =
   flashes w ++ [("Error analyzing resume: " +:+ e, "danger"%string)]).
Proof.
  split.
  - intros Hcall Hraised.
    destruct (method req) eqn:Hm.
    + unfold run_events, builder in Hcall. rewrite Hm in Hcall. simpl in Hcall.
      now rewrite drop_all in Hcall.
    + destruct (builder_post sv req w Hm) as (prompt0 & _ & Hrun).
      cbv zeta in Hrun.
      assert (Hev : run_events (builder sv req) w = [Generated model_flash prompt0]).
      { apply run_events_app. rewrite Hrun.
        now destruct (generate_content sv model_flash prompt0). }
      rewrite Hev in Hcall. destruct Hcall as [H | []].
      injection H as ->. rewrite Hrun, Hraised. split; reflexivity.
  - intros Hcall Hraised.
    destruct (analyzer_cases sv req w) as [(Htrace & _ & _) | (file & Hm & Hfile & Hok)].
    + rewrite (run_events_same _ _ Htrace) in Hcall. destruct Hcall.
    + pose proof (analyzer_upload sv req w file Hm Hfile Hok) as Hrun.
      cbv zeta in Hrun.
      set (p := os_path_join UPLOAD_FOLDER (filename file)) in *.
      set (text := extracted_text sv (<[p:=stream file]> (fs w)) p) in *.
      set (w1 := {| fs := delete p (<[p:=stream file]> (fs w)); flashes := flashes w;
                    trace := trace w ++ Saved p :: extract_events p ++ [Removed p] |}) in *.
      destruct (PyStr.contains "Error" text) eqn:Herr.
      * exfalso. unfold run_events in Hcall.
        rewrite Hrun, (analyzer_tail_error _ _ _ Herr) in Hcall.
        unfold w1 in Hcall. simpl in Hcall. rewrite drop_app_length in Hcall.
        destruct Hcall as [H | H]; [discriminate |].
        apply in_app_or in H as [H | [H | []]]; [| discriminate].
        now apply extract_events_generated in H.
      * destruct (analyzer_tail_clean sv text w1 Herr) as (prompt0 & _ & Htail).
        cbv zeta in Htail.
        assert (Hev : run_events (analyzer sv req) w =
                      Saved p :: extract_events p ++ [Removed p; Generated model_pro prompt0]).
        { apply run_events_app. rewrite Hrun, Htail.
          destruct (generate_content sv model_pro prompt0) as [reply|e0];
            [destruct (markdown sv reply) |];
            unfold w1; simpl; rewrite <- app_assoc; simpl;
            rewrite <- app_assoc; reflexivity. }
        rewrite Hev in Hcall.
        destruct Hcall as [H | H]; [discriminate |].
        apply in_app_or in H as [H | [H | [H | []]]];
          [now apply extract_events_generated in H | discriminate |].
        injection H as ->. rewrite Hrun, Htail, Hraised. split; reflexivity.
Qed.

Lemma provider_failure_redirects_witness :
  (fst (builder provider_down_services (builder_request jane_form) idle_world) =
   Returned (Redirect "/builder") /\
   flashes (snd (builder provider_down_services (builder_request jane_form) idle_world)) =
   [("Error generating resume: 429 Resource has been exhausted"%string, "danger"%string)]) /\
  (fst (analyzer provider_down_services (upload_request "cv.pdf" "%PDF-1.7") idle_world) =
   Returned (Redirect "/analyzer") /\
   flashes (snd (analyzer provider_down_services (upload_request "cv.pdf" "%PDF-1.7") idle_world)) =
   [("Error analyzing resume: 429 Resource has been exhausted"%string, "danger"%string)]).
Proof.
  split.
  - refine (proj1 (provider_failure_redirects
                     provider_down_services (builder_request jane_form) idle_world
                     (match builder_prompt jane_form with
                      | Returned prompt => prompt
                      | Raised _ => EmptyString
                      end)
                     "429 Resource has been exhausted") _ eq_refl).
    vm_compute. left. reflexivity.
  - refine (proj2 (provider_failure_redirects
                     provider_down_services (upload_request "cv.pdf" "%PDF-1.7") idle_world
                     (match analyzer_prompt "Jane DoeAnalyst" with
                      | Returned prompt => prompt
                      | Raised _ => EmptyString
                      end)
                     "429 Resource has been exhausted") _ eq_refl).
    vm_compute. do 3 right. left. reflexivity.
Defined.

(** * Further properties *)

(** ** The validator and the extractor together *)

Lemma endswith_iff (s suf : string) :
  PyStr.endswith s suf = true <-> exists p, s = p +:+ suf.
Proof.
  induction s as [|c s IH].
  - change (PyStr.endswith EmptyString suf) with (String.eqb EmptyString suf || false).
    rewrite orb_false_r, String.eqb_eq. split.
    + intros <-. now exists EmptyString.
    + intros [p Hp]. destruct p; [exact Hp | discriminate].
  - rewrite endswith_cons, orb_true_iff, String.eqb_eq, IH. split.
    + intros [<- | [p ->]]; [now exists EmptyString | now exists (String c p)].
    + intros [p Hp]. destruct p as [|d p].
      * left. exact Hp.
      * right. exists p. rewrite append_cons in Hp. now injection Hp.
Qed.

Lemma endswith_join (a b suf : string) :
  PyStr.endswith b suf = true -> PyStr.endswith (os_path_join a b) suf = true.
Proof.
  intros H. apply endswith_iff in H as [p ->]. unfold os_path_join.
  destruct (String.prefix "/" (p +:+ suf)).
  - apply endswith_iff. now exists p.
  - destruct (String.eqb a "" || PyStr.endswith a "/"); apply endswith_iff.
    + exists (a +:+ p). now rewrite append_assoc.
    + exists (a +:+ "/" +:+ p). now rewrite !append_assoc.
Qed.

Lemma allowed_by_suffix (name ext : string) :
  PyStr.contains "." ext = false ->
  PyStr.endswith name ("." +:+ ext) = true ->
  allowed_file name = Returned (PyStr.in_set (PyStr.lower ext) ALLOWED_EXTENSIONS).
Proof.
  intros Hno H. apply endswith_iff in H as [p ->].
  rewrite allowed_file_cut.
  assert (Hcut : PyStr.rcut "." (p +:+ "." +:+ ext) = Some (p, ext))
    by (apply rcut_Some; split; [reflexivity | exact Hno]).
  now rewrite Hcut.
Qed.

Lemma extract_events_run (sv : services) (path : string) (w : world) :
  run_events (extract_text_from_file sv path) w = extract_events path.
Proof. apply run_events_app. now rewrite extract_run. Qed.

(** X1: a file name that ends in [.pdf] (in [.docx]) passes the
    validator, and reading the path it is saved at opens the PDF (the
    DOCX) library on that path, and only it. *)
Theorem readable_names_are_accepted (sv : services) (w : world) (name : string) :
  let path := os_path_join UPLOAD_FOLDER name in
  (PyStr.endswith name ".pdf" = true ->
   allowed_file name = Returned true /\
   run_events (extract_text_from_file sv path) w = [OpenedPdf path]) /\
  (PyStr.endswith name ".docx" = true ->
   allowed_file name = Returned true /\
   run_events (extract_text_from_file sv path) w = [OpenedDocx path]).
Proof.
  intros path. split; intros H.
  - split; [exact (allowed_by_suffix name "pdf" eq_refl H) |].
    rewrite extract_events_run. unfold extract_events, path.
    now rewrite (endswith_join UPLOAD_FOLDER _ _ H).
  - split; [exact (allowed_by_suffix name "docx" eq_refl H) |].
    rewrite extract_events_run. unfold extract_events, path.
    pose proof (endswith_join UPLOAD_FOLDER _ _ H) as Hj.
    now rewrite (docx_not_pdf _ Hj), Hj.
Qed.

Lemma readable_names_are_accepted_witness :
  allowed_file "cv.final.pdf" = Returned true /\
  run_events (extract_text_from_file healthy_services "uploads/cv.final.pdf") idle_world =
  [OpenedPdf "uploads/cv.final.pdf"] /\
  allowed_file ".docx" = Returned true.
Proof.
  destruct (proj1 (readable_names_are_accepted healthy_services idle_world "cv.final.pdf")
                  eq_refl) as [Hok Hev].
  split; [exact Hok |]. split; [exact Hev |].
  exact (proj1 (proj2 (readable_names_are_accepted healthy_services idle_world ".docx")
                      eq_refl)).
Defined.

(** X2: the validator looks at nothing but the text after the last dot:
    two names with the same dot-free extension get the same answer,
    whatever stem or directories precede it, and a name that ends in a
    dot is refused. *)
Theorem validator_reads_last_extension (f g ext : string) :
  PyStr.contains "." ext = false ->
  allowed_file (f +:+ "." +:+ ext) = allowed_file (g +:+ "." +:+ ext) /\
  allowed_file (f +:+ ".") = Returned false.
Proof.
  intros Hno. split.
  - rewrite !allowed_file_cut.
    assert (Hf : PyStr.rcut "." (f +:+ "." +:+ ext) = Some (f, ext))
      by (apply rcut_Some; split; [reflexivity | exact Hno]).
    assert (Hg : PyStr.rcut "." (g +:+ "." +:+ ext) = Some (g, ext))
      by (apply rcut_Some; split; [reflexivity | exact Hno]).
    now rewrite Hf, Hg.
  - rewrite allowed_file_cut.
    assert (Hf : PyStr.rcut "." (f +:+ ".") = Some (f, EmptyString))
      by (apply rcut_Some; split; reflexivity).
    now rewrite Hf.
Qed.

Lemma validator_reads_last_extension_witness :
  allowed_file ("../../etc/cron.d/job.exe" +:+ "." +:+ "pdf") =
  allowed_file ("cv" +:+ "." +:+ "pdf") /\
  allowed_file ("../../etc/cron.d/job.exe" +:+ ".") = Returned false.
Proof.
  exact (validator_reads_last_extension "../../etc/cron.d/job.exe" "cv" "pdf" eq_refl).
Defined.

(** ** Files *)

Lemma upload_path (name : string) :
  os_path_join UPLOAD_FOLDER name =
  if String.prefix "/" name then name else "uploads/" +:+ name.
Proof. unfold os_path_join. now destruct (String.prefix "/" name). Qed.

(** The one path the analyzer ever saves at is the upload path of the
    posted file, and nothing is left there. *)
Lemma saved_at_upload_path (sv : services) (req : request) (w : world) (p : string) :
  In (Saved p) (run_events (analyzer sv req) w) ->
  exists file,
    multidict_get "resume_file" (files req) = Some file /\
    p = os_path_join UPLOAD_FOLDER (filename file) /\
    fs (snd (analyzer sv req w)) !! p = None.
Proof.
  intros Hsaved.
  destruct (analyzer_cases sv req w) as [(Htrace & _ & _) | (file & Hm & Hfile & Hok)].
  { rewrite (run_events_same _ _ Htrace) in Hsaved. destruct Hsaved. }
  exists file. split; [exact Hfile |].
  pose proof (analyzer_upload sv req w file Hm Hfile Hok) as Hrun.
  cbv zeta in Hrun.
  set (path := os_path_join UPLOAD_FOLDER (filename file)) in *.
  match type of Hrun with
  | _ = analyzer_tail _ ?text ?w1 =>
      destruct (analyzer_tail_world sv text w1)
        as (resp & evs & _ & Hfs & Htrace & Hnone);
      set (t := text) in *; set (w' := w1) in *
  end.
  assert (Hev : run_events (analyzer sv req) w =
                Saved path :: extract_events path ++ [Removed path] ++ evs).
  { apply run_events_app. rewrite Hrun, Htrace. unfold w'. simpl.
    rewrite <- app_assoc. simpl. rewrite <- app_assoc. reflexivity. }
  rewrite Hev in Hsaved.
  assert (Hp : p = path).
  { destruct Hsaved as [H | H]; [now injection H |].
    apply in_app_or in H as [H | H].
    - unfold extract_events in H.
      destruct (PyStr.endswith path ".pdf");
        [| destruct (PyStr.endswith path ".docx")];
        simpl in H; intuition discriminate.
    - destruct H as [H | H]; [discriminate | now destruct (Hnone p)]. }
  split; [exact Hp |].
  subst p. rewrite Hrun, Hfs. unfold w'. simpl. apply lookup_delete_eq.
Qed.

(** X3: the path an upload is written at is the client's file name
    itself when that name is absolute, and the name under [uploads/]
    otherwise; once the analyzer has saved there, no file is left at
    that path when it is done, whether or not one was there before the
    request. *)
Theorem analyzer_upload_path
        (sv : services) (req : request) (w : world) (file : FileStorage) (p : string) :
  multidict_get "resume_file" (files req) = Some file ->
  In (Saved p) (run_events (analyzer sv req) w) ->
  p = (if String.prefix "/" (filename file) then filename file
       else "uploads/" +:+ filename file) /\
  fs (snd (analyzer sv req w)) !! p = None.
Proof.
  intros Hfile Hsaved.
  destruct (saved_at_upload_path sv req w p Hsaved) as (file' & Hfile' & Hp & Hgone).
  rewrite Hfile in Hfile'. injection Hfile' as <-.
  split; [| exact Hgone].
  rewrite Hp. apply upload_path.
Qed.

Lemma analyzer_upload_path_witness :
  "/srv/app/notes.pdf"%string = "/srv/app/notes.pdf"%string /\
  fs (snd (analyzer healthy_services (upload_request "/srv/app/notes.pdf" "%PDF-1.7")
                    {| fs := {[ "/srv/app/notes.pdf"%string := "kept notes"%string ]};
                       flashes := []; trace := [] |}))
    !! "/srv/app/notes.pdf" = None.
Proof.
  refine (analyzer_upload_path
            healthy_services (upload_request "/srv/app/notes.pdf" "%PDF-1.7")
            {| fs := {[ "/srv/app/notes.pdf"%string := "kept notes"%string ]};
               flashes := []; trace := [] |}
            {| filename := "/srv/app/notes.pdf"; stream := "%PDF-1.7" |}
            "/srv/app/notes.pdf" eq_refl _).
  vm_compute. left. reflexivity.
Defined.

(** ** Responses and flashes *)

Ltac answered :=
  simpl; eexists; split;
  [reflexivity | simpl; first [split; reflexivity | eexists; reflexivity]].

Ltac returned :=
  simpl; intros Hresp; injection Hresp as <-;
  simpl; first [split; reflexivity | eexists; reflexivity].

(** X4: whenever the analyzer returns a response, a redirect comes with
    exactly one new flash, of category [danger], and the analyzer page
    comes with none. *)
Theorem analyzer_flash_discipline
        (sv : services) (req : request) (w : world) (resp : response) :
  fst (analyzer sv req w) = Returned resp ->
  match resp with
  | Redirect _ =>
      exists message,
        flashes (snd (analyzer sv req w)) = flashes w ++ [(message, "danger"%string)]
  | RenderTemplate template _ =>
      template = "analyzer.html"%string /\
      flashes (snd (analyzer sv req w)) = flashes w
  end.
Proof.
  destruct (method req) eqn:Hm.
  { unfold analyzer. rewrite Hm. returned. }
  destruct (multidict_get "resume_file" (files req)) as [file|] eqn:Hfile.
  2: { unfold analyzer. rewrite Hm, Hfile. returned. }
  destruct (String.eqb (filename file) "") eqn:Hname.
  { unfold analyzer. rewrite Hm, Hfile, Hname. returned. }
  destruct (allowed_file_total (filename file)) as [[|] Hok].
  2: { unfold analyzer, file_truthy. rewrite Hm, Hfile, Hname, Hok. returned. }
  rewrite (analyzer_upload sv req w file Hm Hfile Hok).
  match goal with
  | |- context [analyzer_tail sv ?text ?w1] =>
      set (t := text); set (w' := w1)
  end.
  change (flashes w) with (flashes w').
  destruct (PyStr.contains "Error" t) eqn:Herr.
  - rewrite (analyzer_tail_error _ _ _ Herr). returned.
  - destruct (analyzer_tail_clean sv t w' Herr) as (prompt & _ & ->). cbv zeta.
    destruct (generate_content sv model_pro prompt) as [reply|e];
      [destruct (markdown sv reply) |]; returned.
Qed.

Lemma analyzer_flash_discipline_witness :
  exists message,
    flashes (snd (analyzer provider_down_services
                           (upload_request "cv.pdf" "%PDF-1.7") idle_world)) =
    [] ++ [(message, "danger"%string)].
Proof.
  refine (analyzer_flash_discipline
            provider_down_services (upload_request "cv.pdf" "%PDF-1.7") idle_world
            (Redirect "/analyzer") _).
  vm_compute. reflexivity.
Defined.

(** X5: the builder always returns a response and never touches a file.
    A redirect comes with exactly one new flash, of category [danger];
    the builder page comes with none. *)
Theorem builder_flash_discipline (sv : services) (req : request) (w : world) :
  fs (snd (builder sv req w)) = fs w /\
  exists resp,
    fst (builder sv req w) = Returned resp /\
    match resp with
    | Redirect _ =>
        exists message,
          flashes (snd (builder sv req w)) = flashes w ++ [(message, "danger"%string)]
    | RenderTemplate template _ =>
        template = "builder.html"%string /\
        flashes (snd (builder sv req w)) = flashes w
    end.
Proof.
  destruct (method req) eqn:Hm.
  { unfold builder. rewrite Hm. split; [reflexivity | answered]. }
  destruct (builder_post sv req w Hm) as (prompt & _ & ->). cbv zeta.
  destruct (generate_content sv model_flash prompt);
    (split; [reflexivity | answered]).
Qed.

(** X6: a posted analyzer form that is not an accepted upload (no
    [resume_file] part, an empty file name, or a refused file name) is
    answered by a redirect to the URL of the request and one [danger]
    flash naming the reason; nothing is saved and nothing else happens. *)
Theorem analyzer_refusals (sv : services) (req : request) (w : world) :
  method req = POST ->
  (forall file,
      multidict_get "resume_file" (files req) = Some file ->
      allowed_file (filename file) <> Returned true) ->
  analyzer sv req w =
  (Returned (Redirect (url req)), add_flash w (refusal req) "danger").
Proof.
  intros Hm Hbad. unfold analyzer, refusal. rewrite Hm.
  destruct (multidict_get "resume_file" (files req)) as [file|]; [| reflexivity].
  destruct (String.eqb (filename file) "") eqn:Hname; [reflexivity |].
  unfold file_truthy. rewrite Hname. simpl negb. cbv iota.
  destruct (allowed_file_total (filename file)) as [[|] Hok].
  - now destruct (Hbad file eq_refl).
  - now rewrite Hok.
Qed.

Lemma analyzer_refusals_witness :
  analyzer healthy_services (upload_request "cv.pdf.exe" "MZ") idle_world =
  (Returned (Redirect "http://localhost:5000/analyzer"),
   add_flash idle_world "Invalid file type. Please upload a PDF or DOCX." "danger") /\
  analyzer healthy_services (upload_request "" "") idle_world =
  (Returned (Redirect "http://localhost:5000/analyzer"),
   add_flash idle_world "No selected file" "danger") /\
  analyzer healthy_services (bare_post "http://localhost:5000/analyzer") idle_world =
  (Returned (Redirect "http://localhost:5000/analyzer"),
   add_flash idle_world "No file part" "danger").
Proof.
  split; [| split].
  - refine (analyzer_refusals healthy_services (upload_request "cv.pdf.exe" "MZ")
                              idle_world eq_refl _).
    intros file [= <-]. discriminate.
  - refine (analyzer_refusals healthy_services (upload_request "" "")
                              idle_world eq_refl _).
    intros file [= <-]. discriminate.
  - refine (analyzer_refusals healthy_services (bare_post "http://localhost:5000/analyzer")
                              idle_world eq_refl _).
    intros file [=].
Defined.

(** ** Calls to the model *)


Lemma analyzer_error_events (sv : services) (req : request) (w : world)
      (file : FileStorage) :
  method req = POST ->
  multidict_get "resume_file" (files req) = Some file ->
  allowed_file (filename file) = Returned true ->
  let path := os_path_join UPLOAD_FOLDER (filename file) in
  let text := extracted_text sv (<[path := stream file]> (fs w)) path in
  PyStr.contains "Error" text = true ->
  run_events (analyzer sv req) w = Saved path :: extract_events path ++ [Removed path].
Proof.
  intros Hm Hfile Hok path text Herr.
  pose proof (analyzer_upload sv req w file Hm Hfile Hok) as Hrun.
  cbv zeta in Hrun. fold path in Hrun. fold text in Hrun.
  apply run_events_app. rewrite Hrun, (analyzer_tail_error _ _ _ Herr). reflexivity.
Qed.



(** X8: a posted builder form, whatever it carries, leads to exactly one
    call, to the [flash] model, with the builder template filled from
    the form; a GET leads to none. *)
Theorem builder_model_call (sv : services) (req : request) (w : world) :
  (method req = GET -> run_events (builder sv req) w = []) /\
  (method req = POST ->
   exists prompt,
     builder_prompt (form req) = Returned prompt /\
     run_events (builder sv req) w = [Generated model_flash prompt]).
Proof.
  split; intros Hm.
  - apply run_events_same. unfold builder. now rewrite Hm.
  - destruct (builder_post sv req w Hm) as (prompt & Hprompt & Hrun).
    exists prompt. split; [exact Hprompt |].
    apply run_events_app. rewrite Hrun. cbv zeta.
    now destruct (generate_content sv model_flash prompt).
Qed.

Lemma builder_model_call_witness :
  exists prompt,
    builder_prompt [] = Returned prompt /\
    run_events (builder provider_down_services (builder_request [])) idle_world =
    [Generated model_flash prompt].
Proof.
  exact (proj2 (builder_model_call provider_down_services (builder_request []) idle_world)
               eq_refl).
Defined.

(** ** Outcomes of an accepted upload *)

Lemma error_prefix_contains (kind e : string) :
  PyStr.contains "Error" ("Error extracting text from " +:+ kind +:+ ": " +:+ e) = true.
Proof.
  apply contains_iff.
  exists EmptyString, (" extracting text from " +:+ kind +:+ ": " +:+ e).
  reflexivity.
Qed.

Lemma failure_path_of_error (sv : services) (req : request) (w : world)
      (file : FileStorage) :
  method req = POST ->
  multidict_get "resume_file" (files req) = Some file ->
  allowed_file (filename file) = Returned true ->
  let path := os_path_join UPLOAD_FOLDER (filename file) in
  let text := extracted_text sv (<[path := stream file]> (fs w)) path in
  PyStr.contains "Error" text = true ->
  extraction_failure_path w (analyzer sv req w) text.
Proof.
  intros Hm Hfile Hok path text Herr.
  pose proof (analyzer_error_events sv req w file Hm Hfile Hok Herr) as Hev.
  pose proof (analyzer_upload sv req w file Hm Hfile Hok) as Hrun.
  cbv zeta in Hrun, Hev. fold path in Hrun, Hev. fold text in Hrun.
  unfold extraction_failure_path.
  change (drop (List.length (trace w)) (trace (snd (analyzer sv req w))))
    with (run_events (analyzer sv req) w).
  rewrite Hev, Hrun, (analyzer_tail_error _ _ _ Herr).
  split; [reflexivity |]. split; [reflexivity |].
  intros m prompt [H | H]; [discriminate |].
  apply in_app_or in H as [H | [H | []]]; [| discriminate].
  now apply extract_events_generated in H.
Qed.

(** X9: when the library raises on an upload whose name ends in [.pdf]
    (in [.docx]), the analyzer answers on its extraction failure path:
    no model is called, and the flash carries the PDF (the DOCX) error
    text with the message of the exception. *)
Theorem unreadable_upload_is_reported
        (sv : services) (req : request) (w : world) (file : FileStorage) (e : string) :
  method req = POST ->
  multidict_get "resume_file" (files req) = Some file ->
  let path := os_path_join UPLOAD_FOLDER (filename file) in
  let stored := <[path := stream file]> (fs w) in
  (PyStr.endswith (filename file) ".pdf" = true ->
   pdfplumber_pages sv stored path = Raised e ->
   extraction_failure_path w (analyzer sv req w)
     ("Error extracting text from PDF: " +:+ e)) /\
  (PyStr.endswith (filename file) ".docx" = true ->
   docx_paragraphs sv stored path = Raised e ->
   extraction_failure_path w (analyzer sv req w)
     ("Error extracting text from DOCX: " +:+ e)).
Proof.
  intros Hm Hfile path stored. split; intros Hsuf Hraised.
  - pose proof (allowed_by_suffix _ "pdf" eq_refl Hsuf) as Hok.
    pose proof (failure_path_of_error sv req w file Hm Hfile Hok) as Hfail.
    cbv zeta in Hfail. fold path in Hfail. fold stored in Hfail.
    unfold extracted_text in Hfail.
    pose proof (endswith_join UPLOAD_FOLDER _ _ Hsuf) as Hj. fold path in Hj.
    rewrite Hj, Hraised in Hfail.
    apply Hfail, (error_prefix_contains "PDF").
  - pose proof (allowed_by_suffix _ "docx" eq_refl Hsuf) as Hok.
    pose proof (failure_path_of_error sv req w file Hm Hfile Hok) as Hfail.
    cbv zeta in Hfail. fold path in Hfail. fold stored in Hfail.
    unfold extracted_text in Hfail.
    pose proof (endswith_join UPLOAD_FOLDER _ _ Hsuf) as Hj. fold path in Hj.
    rewrite (docx_not_pdf _ Hj), Hj, Hraised in Hfail.
    apply Hfail, (error_prefix_contains "DOCX").
Qed.

Lemma unreadable_upload_is_reported_witness :
  extraction_failure_path
    idle_world
    (analyzer unreadable_services (upload_request "cv.docx" "PK") idle_world)
    "Error extracting text from DOCX: File is not a zip file".
Proof.
  exact (proj2 (unreadable_upload_is_reported
                  unreadable_services (upload_request "cv.docx" "PK") idle_world
                  {| filename := "cv.docx"; stream := "PK" |}
                  "File is not a zip file" eq_refl eq_refl)
               eq_refl eq_refl).
Defined.

(** X10: an accepted upload whose text is free of [Error] is answered by
    what the model and the Markdown renderer make of it.  When both
    return, the analyzer page is rendered with the HTML as [results] and
    no flash; when the renderer raises, the answer is the same redirect
    and [danger] flash as when the model raises. *)
Theorem analyzer_renders_reply
        (sv : services) (req : request) (w : world) (file : FileStorage)
        (text prompt reply : string) :
  method req = POST ->
  multidict_get "resume_file" (files req) = Some file ->
  allowed_file (filename file) = Returned true ->
  let path := os_path_join UPLOAD_FOLDER (filename file) in
  fst (extract_text_from_file sv path (snd (save file path w))) = Returned text ->
  PyStr.contains "Error" text = false ->
  analyzer_prompt text = Returned prompt ->
  generate_content sv model_pro prompt = Returned reply ->
  match markdown sv reply with
  | Returned html =>
      fst (analyzer sv req w) =
      Returned (RenderTemplate "analyzer.html" [("results"%string, PyStr html)]) /\
      flashes (snd (analyzer sv req w)) = flashes w
  | Raised e =>
      fst (analyzer sv req w) = Returned (Redirect "/analyzer") /\
      flashes (snd (analyzer sv req w)) =
      flashes w ++ [("Error analyzing resume: " +:+ e, "danger"%string)]
  end.
Proof.
  intros Hm Hfile Hok path Htext Herr Hprompt Hreply.
  rewrite extract_run in Htext. simpl in Htext. injection Htext as Htext.
  pose proof (analyzer_upload sv req w file Hm Hfile Hok) as Hrun.
  cbv zeta in Hrun. fold path in Hrun. rewrite Htext in Hrun.
  match type of Hrun with
  | _ = analyzer_tail _ _ ?w1 =>
      destruct (analyzer_tail_clean sv text w1 Herr) as (prompt0 & Hprompt0 & Htail)
  end.
  rewrite Hprompt in Hprompt0. injection Hprompt0 as <-.
  rewrite Hrun, Htail, Hreply. cbv zeta.
  destruct (markdown sv reply); split; reflexivity.
Qed.

Lemma analyzer_renders_reply_witness :
  fst (analyzer healthy_services (upload_request "cv.pdf" "%PDF-1.7") idle_world) =
  Returned (RenderTemplate "analyzer.html"
                           [("results"%string, PyStr "<p>Score: 80</p>")]) /\
  flashes (snd (analyzer healthy_services (upload_request "cv.pdf" "%PDF-1.7") idle_world)) = [].
Proof.
  exact (analyzer_renders_reply
           healthy_services (upload_request "cv.pdf" "%PDF-1.7") idle_world
           {| filename := "cv.pdf"; stream := "%PDF-1.7" |}
           "Jane DoeAnalyst"
           (match analyzer_prompt "Jane DoeAnalyst" with
            | Returned prompt => prompt
            | Raised _ => EmptyString
            end)
           "Score: 80"
           eq_refl eq_refl eq_refl eq_refl eq_refl eq_refl eq_refl).
Defined.

(** X11: when the model returns, the builder renders its page with the
    reply, unchanged, as [yaml_code]; nothing is flashed and the one
    event of the request is the call to the model. *)
Theorem builder_renders_reply
        (sv : services) (req : request) (w : world) (prompt reply : string) :
  method req = POST ->
  builder_prompt (form req) = Returned prompt ->
  generate_content sv model_flash prompt = Returned reply ->
  builder sv req w =
  (Returned (RenderTemplate "builder.html" [("yaml_code"%string, PyStr reply)]),
   add_events w [Generated model_flash prompt]).
Proof.
  intros Hm Hprompt Hreply.
  destruct (builder_post sv req w Hm) as (prompt0 & Hprompt0 & ->).
  rewrite Hprompt in Hprompt0. injection Hprompt0 as <-.
  cbv zeta. now rewrite Hreply.
Qed.

Lemma builder_renders_reply_witness :
  fst (builder healthy_services (builder_request jane_form) idle_world) =
  Returned (RenderTemplate "builder.html" [("yaml_code"%string, PyStr "Score: 80")]).
Proof.
  exact (f_equal fst
           (builder_renders_reply
              healthy_services (builder_request jane_form) idle_world
              (match builder_prompt jane_form with
               | Returned prompt => prompt
               | Raised _ => EmptyString
               end)
              "Score: 80" eq_refl eq_refl eq_refl)).
Defined.

(** ** The prompts, for every input *)

Lemma append_inv_head (s a b : string) : s +:+ a = s +:+ b -> a = b.
Proof.
  induction s as [|c s IH]; [trivial |].
  rewrite !append_cons. intros H. injection H as H. now apply IH.
Qed.

Lemma append_inv_tail (a b t : string) : a +:+ t = b +:+ t -> a = b.
Proof.
  revert b; induction a as [|c a IH]; intros [|d b] H.
  - reflexivity.
  - exfalso. apply (f_equal String.length) in H.
    rewrite append_nil, append_cons in H. simpl in H.
    rewrite length_append in H. lia.
  - exfalso. apply (f_equal String.length) in H.
    rewrite append_nil, append_cons in H. simpl in H.
    rewrite length_append in H. lia.
  - rewrite !append_cons in H. injection H as -> H. f_equal. now apply IH.
Qed.

Lemma analyzer_prompt_shape (text : string) :
  analyzer_prompt text =
  Returned (analyzer_head +:+ text +:+ String newline (String newline EmptyString)).
Proof.
  unfold analyzer_prompt.
  rewrite (format_pieces _ _ _ analyzer_pieces_ok). reflexivity.
Qed.

(** X12: the analyzer prompt is the fixed instructions, closing on the
    line [**Resume Text:**], then the extracted text exactly as it is
    (braces and all), then two newlines; it is rendered for every text,
    and two texts with the same prompt are the same text. *)
Theorem analyzer_prompt_embeds_text :
  exists head,
    PyStr.endswith head ("**Resume Text:**" +:+ String newline EmptyString) = true /\
    (forall text,
        analyzer_prompt text =
        Returned (head +:+ text +:+ String newline (String newline EmptyString))) /\
    (forall text text', analyzer_prompt text = analyzer_prompt text' -> text = text').
Proof.
  exists analyzer_head. split; [vm_compute; reflexivity |].
  split; [apply analyzer_prompt_shape |].
  intros text text'. rewrite !analyzer_prompt_shape. intros [= H].
  apply append_inv_head in H. now apply append_inv_tail in H.
Qed.

Lemma builder_prompt_interleave (f : list (string * string)) :
  builder_prompt f =
  Returned (interleave (literals builder_pieces)
                       (map (field_text f) (field_names builder_pieces))).
Proof. rewrite builder_prompt_fill. reflexivity. Qed.

(** X13: for every form, the builder prompt is a fixed sequence of
    twenty-three pieces of text with the values of the fields between
    them, unchanged: first the eleven fields in the order of the form,
    then the eleven again in the order of the YAML skeleton, where
    [experience] comes before [education].  A field the form lacks
    stands as [None]. *)
Theorem builder_prompt_structure :
  List.length (literals builder_pieces) = 23 /\
  field_names builder_pieces =
    builder_fields ++
    ["name"; "email"; "phone"; "linkedin"; "github"; "experience";
     "education"; "projects"; "skills"; "interests"; "languages"]%string /\
  forall f,
    builder_prompt f =
    Returned (interleave (literals builder_pieces)
                         (map (field_text f) (field_names builder_pieces))).
Proof.
  split; [reflexivity |]. split; [reflexivity |].
  apply builder_prompt_interleave.
Qed.

(** ** Lines of the builder prompt *)

Lemma split_nonempty (sep : ascii) (s : string) : PyStr.split sep s <> [].
Proof.
  destruct s as [|c s]; simpl; [discriminate |].
  destruct (Ascii.eqb c sep); [discriminate |].
  destruct (PyStr.split sep s); discriminate.
Qed.

Lemma join_lines_cons (x x' : string) (xs ys : list string) :
  join_lines (x :: x' :: xs) ys = x :: join_lines (x' :: xs) ys.
Proof. reflexivity. Qed.

Lemma split_app (sep : ascii) (a b : string) :
  PyStr.split sep (a +:+ b) = join_lines (PyStr.split sep a) (PyStr.split sep b).
Proof.
  induction a as [|c a IH].
  - rewrite append_nil. simpl.
    destruct (PyStr.split sep b) as [|y ys] eqn:Hb; [| reflexivity].
    now destruct (split_nonempty sep b).
  - rewrite append_cons. simpl. rewrite IH.
    destruct (PyStr.split sep a) as [|w ws] eqn:Ha;
      [now destruct (split_nonempty sep a) |].
    destruct (Ascii.eqb c sep); [reflexivity |].
    destruct ws as [|w' ws].
    + simpl. destruct (PyStr.split sep b) as [|y ys] eqn:Hb;
        [now destruct (split_nonempty sep b) | reflexivity].
    + reflexivity.
Qed.

Lemma lines_app (a b : string) : lines (a +:+ b) = join_lines (lines a) (lines b).
Proof. apply split_app. Qed.

Lemma split_free (s : string) : newline_free s -> lines s = [s].
Proof.
  unfold newline_free, lines. induction s as [|c s IH]; [reflexivity |].
  rewrite contains_cons, prefix_single. intros H.
  apply orb_false_elim in H as [Hc Hs]. simpl. rewrite Hc, (IH Hs). reflexivity.
Qed.

Lemma lines_of_interleave (texts values : list string) :
  Forall newline_free values ->
  lines (interleave texts values) = lines_interleave (map lines texts) values.
Proof.
  revert values; induction texts as [|text texts IH]; intros values Hfree.
  - reflexivity.
  - destruct values as [|value values]; [reflexivity |].
    inversion Hfree as [|? ? Hvalue Hrest]; subst.
    simpl. rewrite !lines_app, (IH _ Hrest). now rewrite (split_free _ Hvalue).
Qed.

Lemma builder_text_lines_ok : map lines (literals builder_pieces) = builder_text_lines.
Proof. vm_compute. reflexivity. Qed.

Lemma builder_lines (f : list (string * string)) (prompt : string) :
  Forall (fun name => newline_free (field_text f name)) builder_fields ->
  builder_prompt f = Returned prompt ->
  lines prompt =
  lines_interleave builder_text_lines
                   (map (field_text f) (field_names builder_pieces)).
Proof.
  intros Hfree Hprompt.
  rewrite builder_prompt_interleave in Hprompt.
  set (body := interleave _ _) in Hprompt.
  assert (Hbody : prompt = body) by congruence.
  rewrite Hbody. unfold body.
  rewrite lines_of_interleave, builder_text_lines_ok; [reflexivity |].
  apply List.Forall_forall. intros value Hin.
  apply in_map_iff in Hin as (name & <- & Hin).
  rewrite List.Forall_forall in Hfree. apply Hfree.
  vm_compute in Hin. vm_compute. tauto.
Qed.

(** X14: for every form whose values hold no newline, the keys under
    [sections:] of the rendered YAML skeleton are [professional_summary],
    [experience], [education], [projects], [skills], [interests],
    [languages], in that order. *)
Theorem section_order_for_every_form (f : list (string * string)) (prompt : string) :
  Forall (fun name => newline_free (field_text f name)) builder_fields ->
  builder_prompt f = Returned prompt ->
  yaml_section_keys prompt =
  ["professional_summary"; "experience"; "education"; "projects";
   "skills"; "interests"; "languages"]%string.
Proof.
  intros Hfree Hprompt. unfold yaml_section_keys.
  rewrite (builder_lines f prompt Hfree Hprompt).
  unfold field_text.
  generalize (py_str (of_option (multidict_get "name" f))).
  generalize (py_str (of_option (multidict_get "email" f))).
  generalize (py_str (of_option (multidict_get "phone" f))).
  generalize (py_str (of_option (multidict_get "linkedin" f))).
  generalize (py_str (of_option (multidict_get "github" f))).
  generalize (py_str (of_option (multidict_get "education" f))).
  generalize (py_str (of_option (multidict_get "experience" f))).
  generalize (py_str (of_option (multidict_get "projects" f))).
  generalize (py_str (of_option (multidict_get "skills" f))).
  generalize (py_str (of_option (multidict_get "interests" f))).
  generalize (py_str (of_option (multidict_get "languages" f))).
  intros. vm_compute. reflexivity.
Qed.

Lemma section_order_for_every_form_witness :
  yaml_section_keys
    (match builder_prompt [("name"%string, "{name}: {0}"%string)] with
     | Returned prompt => prompt
     | Raised _ => EmptyString
     end) =
  ["professional_summary"; "experience"; "education"; "projects";
   "skills"; "interests"; "languages"]%string.
Proof.
  refine (section_order_for_every_form [("name"%string, "{name}: {0}"%string)] _ _ eq_refl).
  unfold builder_fields. repeat (constructor; [vm_compute; reflexivity |]). constructor.
Defined.

(** X15: for every form whose values hold no newline, each field is
    written on a line of its own in both places: the rendered prompt has
    the line of the user-information listing and the line of the YAML
    skeleton that end in the value of the field. *)
Theorem slot_lines_for_every_form (f : list (string * string)) (prompt : string) :
  Forall (fun name => newline_free (field_text f name)) builder_fields ->
  builder_prompt f = Returned prompt ->
  Forall (fun slot : string * (string * string) =>
            In (fst (snd slot) +:+ field_text f (fst slot)) (lines prompt) /\
            In (snd (snd slot) +:+ field_text f (fst slot)) (lines prompt))
         slots.
Proof.
  intros Hfree Hprompt.
  rewrite (builder_lines f prompt Hfree Hprompt).
  let names := eval vm_compute in (field_names builder_pieces) in
  change (field_names builder_pieces) with names.
  cbn [map lines_interleave join_lines builder_text_lines].
  rewrite !append_empty_r.
  unfold slots.
  repeat (constructor;
          [cbn [fst snd]; split; cbn [In];
           repeat (first [left; reflexivity | right]) |]).
  constructor.
Qed.

Lemma slot_lines_for_every_form_witness :
  In ("Name: " +:+ field_text jane_form "name")
     (lines (match builder_prompt jane_form with
             | Returned prompt => prompt
             | Raised _ => EmptyString
             end)) /\
  In ("  name: " +:+ field_text jane_form "name")
     (lines (match builder_prompt jane_form with
             | Returned prompt => prompt
             | Raised _ => EmptyString
             end)).
Proof.
  assert (Hfree : Forall (fun name => newline_free (field_text jane_form name))
                         builder_fields).
  { unfold builder_fields. repeat (constructor; [vm_compute; reflexivity |]).
    constructor. }
  exact (Forall_inv (slot_lines_for_every_form jane_form _ Hfree eq_refl)).
Defined.

(** ** The extractor on any path *)

(** X16: whatever the path, [extract_text_from_file] returns a text and
    leaves the files and the flashes as they were.  It opens the PDF
    library exactly on the paths that end in [.pdf], the DOCX library
    exactly on the other paths that end in [.docx], and on every
    remaining path it opens nothing and returns the empty text. *)
Theorem extraction_is_read_only (sv : services) (path : string) (w : world) :
  (exists text, fst (extract_text_from_file sv path w) = Returned text) /\
  fs (snd (extract_text_from_file sv path w)) = fs w /\
  flashes (snd (extract_text_from_file sv path w)) = flashes w /\
  (In (OpenedPdf path) (run_events (extract_text_from_file sv path) w) <->
   PyStr.endswith path ".pdf" = true) /\
  (In (OpenedDocx path) (run_events (extract_text_from_file sv path) w) <->
   PyStr.endswith path ".pdf" = false /\ PyStr.endswith path ".docx" = true) /\
  (PyStr.endswith path ".pdf" = false ->
   PyStr.endswith path ".docx" = false ->
   extract_text_from_file sv path w = (Returned EmptyString, w)).
Proof.
  rewrite extract_events_run, extract_run. simpl.
  split; [eauto |]. split; [reflexivity |]. split; [reflexivity |].
  unfold extract_events, extracted_text, add_events.
  destruct (PyStr.endswith path ".pdf");
    [| destruct (PyStr.endswith path ".docx")]; simpl.
  - split; [intuition |]. split; [| discriminate].
    split; [intros [H | []]; discriminate | intros [H _]; discriminate].
  - split; [split; [intros [H | []]; discriminate | discriminate] |].
    split; [intuition | discriminate].
  - split; [split; [intros [] | discriminate] |].
    split; [split; [intros [] | intros [_ H]; discriminate] |].
    intros _ _. destruct w. simpl. now rewrite app_nil_r.
Qed.

Lemma extraction_is_read_only_witness :
  extract_text_from_file unreadable_services "uploads/resume.PDF" idle_world =
  (Returned EmptyString, idle_world).
Proof.
  exact (proj2 (proj2 (proj2 (proj2 (proj2
           (extraction_is_read_only unreadable_services "uploads/resume.PDF" idle_world)))))
           eq_refl eq_refl).
Defined.
